(** * BioHarness vitals simulator: generation and delivery pipeline

    A shallow embedding of the value generator ([vitals_generator.py]),
    the simulation engine ([simulation_engine.py]), the broadcaster
    ([data_broadcaster.py]) and the rule-engine client
    ([rule_engine_client.py]), with the properties of the pipeline stated
    over it.

    Conventions of the embedding:
    - Python [float] values are exact rationals ([Q]); Python [int] is [Z].
      A rational stands for a finite float and arithmetic on it is exact:
      the model has no NaN, no infinity and no rounding error.  The code
      and the model can therefore part where a float operation overflows,
      where an operand is NaN, and, by one unit in the last place, where a
      result is rounded; statements about sampled values say for which
      ranges they are meant.
    - [random.random()] reads the next cell of a tape of draws; the tape is
      an input of the model, every cell in the half-open unit interval.
    - [requests.post] reads the next cell of a tape of outcomes and is
      recorded, with its arguments, in a chronological log.
    - [raise] is a result of type [PyResult]; state is passed explicitly. *)

From Stdlib Require Import ZArith QArith Qround Qminmax Qabs Lqa Lia.
From stdpp Require Import base gmap strings pretty.

Open Scope Q_scope.

(** ** vital_types.py *)

Inductive VitalSignType : Set :=
  | HEART_RATE
  | BLOOD_PRESSURE_SYSTOLIC
  | BLOOD_PRESSURE_DIASTOLIC
  | OXYGEN_SATURATION
  | BODY_TEMPERATURE
  | RESPIRATORY_RATE.

Inductive PatientSimulationMode : Set :=
  | NORMAL_HEALTHY_PATIENT
  | ABNORMAL_CONDITION_PATIENT
  | EMERGENCY_CRITICAL_PATIENT.

(** The [.value] of the two string enumerations. *)
Definition vital_value (v : VitalSignType) : string :=
  match v with
  | HEART_RATE => "heart_rate"
  | BLOOD_PRESSURE_SYSTOLIC => "bp_systolic"
  | BLOOD_PRESSURE_DIASTOLIC => "bp_diastolic"
  | OXYGEN_SATURATION => "spo2"
  | BODY_TEMPERATURE => "temperature"
  | RESPIRATORY_RATE => "respiratory_rate"
  end.

Definition mode_value (m : PatientSimulationMode) : string :=
  match m with
  | NORMAL_HEALTHY_PATIENT => "normal"
  | ABNORMAL_CONDITION_PATIENT => "abnormal"
  | EMERGENCY_CRITICAL_PATIENT => "emergency"
  end.

#[global] Instance VitalSignType_eq_dec : EqDecision VitalSignType.
Proof. solve_decision. Defined.

#[global] Instance PatientSimulationMode_eq_dec : EqDecision PatientSimulationMode.
Proof. solve_decision. Defined.

Definition vital_index (v : VitalSignType) : nat :=
  match v with
  | HEART_RATE => 0
  | BLOOD_PRESSURE_SYSTOLIC => 1
  | BLOOD_PRESSURE_DIASTOLIC => 2
  | OXYGEN_SATURATION => 3
  | BODY_TEMPERATURE => 4
  | RESPIRATORY_RATE => 5
  end.

Definition vital_of_index (n : nat) : VitalSignType :=
  match n with
  | 0%nat => HEART_RATE
  | 1%nat => BLOOD_PRESSURE_SYSTOLIC
  | 2%nat => BLOOD_PRESSURE_DIASTOLIC
  | 3%nat => OXYGEN_SATURATION
  | 4%nat => BODY_TEMPERATURE
  | _ => RESPIRATORY_RATE
  end.

#[global] Instance VitalSignType_countable : Countable VitalSignType.
Proof.
  refine (inj_countable' vital_index vital_of_index _).
  intros []; reflexivity.
Defined.

(** [VitalValueRange = Tuple[float, float]], a (min_value, max_value) pair. *)
Definition VitalValueRange : Type := Q * Q.

(** ** config_settings.py *)

Definition DEFAULT_SIMULATION_INTERVAL_SECONDS : Z := 10.
Definition DEFAULT_PATIENT_IDENTIFIER : string := "patient_001".
Definition DEFAULT_DEVICE_IDENTIFIER : string := "BioHarness_Sim_001".
Definition MINIMUM_SIMULATION_INTERVAL_SECONDS : Z := 1.

Definition RULE_ENGINE_BASE_URL : string := "http://localhost:3000".
Definition RULE_ENGINE_VITALS_ENDPOINT : string := "/api/vitals/stream".
Definition RULE_ENGINE_CONNECTION_TIMEOUT_SECONDS : Z := 5.
Definition RULE_ENGINE_REQUEST_RETRY_COUNT : Z := 3.

Definition UI_HTTP_ENDPOINT : string := "http://localhost:3001/api/vitals/update".
Definition UI_CONNECTION_TIMEOUT_SECONDS : Z := 3.

Definition ENABLE_RULE_ENGINE_BROADCASTING : bool := true.
Definition ENABLE_UI_BROADCASTING : bool := true.
Definition BROADCASTING_RETRY_DELAY_SECONDS : Z := 2.
Definition MAX_BROADCASTING_RETRIES : Z := 3.

(** The three range dictionaries.  Their keys are the six [.value] strings
    of [VitalSignType], and they are only ever indexed by
    [vital_type.value], so each is a function of the vital type. *)
Definition NORMAL_VITAL_RANGES (v : VitalSignType) : VitalValueRange :=
  match v with
  | HEART_RATE => (60, 100)
  | BLOOD_PRESSURE_SYSTOLIC => (90, 140)
  | BLOOD_PRESSURE_DIASTOLIC => (60, 90)
  | OXYGEN_SATURATION => (95, 100)
  | BODY_TEMPERATURE => (36.1, 37.2)
  | RESPIRATORY_RATE => (12, 20)
  end.

Definition ABNORMAL_VITAL_RANGES (v : VitalSignType) : VitalValueRange :=
  match v with
  | HEART_RATE => (40, 180)
  | BLOOD_PRESSURE_SYSTOLIC => (70, 200)
  | BLOOD_PRESSURE_DIASTOLIC => (40, 120)
  | OXYGEN_SATURATION => (85, 94)
  | BODY_TEMPERATURE => (35.0, 40.0)
  | RESPIRATORY_RATE => (8, 30)
  end.

Definition EMERGENCY_VITAL_RANGES (v : VitalSignType) : VitalValueRange :=
  match v with
  | HEART_RATE => (30, 220)
  | BLOOD_PRESSURE_SYSTOLIC => (60, 250)
  | BLOOD_PRESSURE_DIASTOLIC => (30, 150)
  | OXYGEN_SATURATION => (70, 84)
  | BODY_TEMPERATURE => (32.0, 42.0)
  | RESPIRATORY_RATE => (5, 40)
  end.

(** ** Python built-ins used by the code *)

Inductive PyException : Type :=
  | ValueError (msg : string).

Inductive PyResult (A : Type) : Type :=
  | Returned (a : A)
  | Raised (exc : PyException).
Arguments Returned {A} a.
Arguments Raised {A} exc.

(** [x < y] on floats. *)
Definition Qltb (x y : Q) : bool := negb (Qle_bool y x).

(** Nearest integer, ties to the even one: what [round] does. *)
Definition round_half_even (y : Q) : Z :=
  let f := Qfloor y in
  match Qcompare (y - inject_Z f) 0.5 with
  | Lt => f
  | Gt => (f + 1)%Z
  | Eq => if Z.even f then f else (f + 1)%Z
  end.

(** [round(x, 1)]. *)
Definition round1 (x : Q) : Q := inject_Z (round_half_even (x * 10)) / 10.

(** [int(x)] of a float: truncation toward zero. *)
Definition py_int (x : Q) : Z := Z.quot (Qnum x) (Zpos (Qden x)).

(** A value with at most one decimal digit. *)
Definition one_decimal (x : Q) : Prop := exists k : Z, x == inject_Z k / 10.

(** [lo <= x <= hi] for a range pair. *)
Definition within (r : VitalValueRange) (x : Q) : Prop := fst r <= x /\ x <= snd r.

(** ** The random source

    [tape] holds the successive results of [random.random()], [drawn] how
    many were consumed. *)
Record RandomSource : Type := mkRandomSource {
  tape : nat -> Q;
  drawn : nat
}.

Definition Rand (A : Type) : Type := RandomSource -> A * RandomSource.

Definition rret {A} (a : A) : Rand A := fun r => (a, r).

Definition rbind {A B} (m : Rand A) (k : A -> Rand B) : Rand B :=
  fun r => let (a, r') := m r in k a r'.

Notation "x <~ m ;; k" := (rbind m (fun x => k))
  (at level 100, m at next level, right associativity).

(** [random.random()] *)
Definition random : Rand Q :=
  fun r => (tape r (drawn r), mkRandomSource (tape r) (S (drawn r))).

(** [random.uniform(a, b)], which is [a + (b - a) * random()]. *)
Definition uniform (a b : Q) : Rand Q :=
  u <~ random ;; rret (a + (b - a) * u).

(** Every draw lies in [0, 1). *)
Definition unit_draws (r : RandomSource) : Prop :=
  forall n, 0 <= tape r n /\ tape r n < 1.

(** ** vitals_generator.py *)

Record VitalSignsValueGenerator : Type := mkGenerator {
  _custom_vital_ranges : gmap VitalSignType VitalValueRange
}.

Definition _predefined_vital_ranges (m : PatientSimulationMode)
  : VitalSignType -> VitalValueRange :=
  match m with
  | NORMAL_HEALTHY_PATIENT => NORMAL_VITAL_RANGES
  | ABNORMAL_CONDITION_PATIENT => ABNORMAL_VITAL_RANGES
  | EMERGENCY_CRITICAL_PATIENT => EMERGENCY_VITAL_RANGES
  end.

(** [VitalSignsValueGenerator()] *)
Definition new_generator : VitalSignsValueGenerator := mkGenerator ∅.

(** Returns the outcome of the call and the generator afterwards.  The
    bounds are numbers: a NaN bound, for which the code's comparison is
    false so that the pair is stored, is not a value of [Q]. *)
Definition set_custom_vital_range (g : VitalSignsValueGenerator)
    (vital_type : VitalSignType) (minimum_value maximum_value : Q)
  : PyResult unit * VitalSignsValueGenerator :=
  if Qle_bool maximum_value minimum_value
  then (Raised (ValueError "Minimum value must be less than maximum value"), g)
  else (Returned tt,
        mkGenerator (<[vital_type := (minimum_value, maximum_value)]>
                       (_custom_vital_ranges g))).

Definition remove_custom_vital_range (g : VitalSignsValueGenerator)
    (vital_type : VitalSignType) : bool * VitalSignsValueGenerator :=
  (bool_decide (is_Some (_custom_vital_ranges g !! vital_type)),
   mkGenerator (delete vital_type (_custom_vital_ranges g))).

Definition get_vital_range_for_mode (g : VitalSignsValueGenerator)
    (vital_type : VitalSignType) (simulation_mode : PatientSimulationMode)
  : VitalValueRange :=
  match _custom_vital_ranges g !! vital_type with
  | Some custom => custom
  | None => _predefined_vital_ranges simulation_mode vital_type
  end.

Definition _generate_normal_patient_value (min_val max_val : Q) : Rand Q :=
  let center_point := (min_val + max_val) / 2 in
  let variation_range := (max_val - min_val) * 0.15 in
  generated_value <~ uniform (center_point - variation_range)
                             (center_point + variation_range) ;;
  let generated_value := Qmax min_val (Qmin max_val generated_value) in
  rret (round1 generated_value).

Definition _generate_abnormal_patient_value (vital_type : VitalSignType)
    (min_val max_val : Q) : Rand Q :=
  spike <~ random ;;
  if Qltb spike 0.3 then
    side <~ random ;;
    if Qltb side 0.5 then
      let spike_range := min_val + (max_val - min_val) * 0.25 in
      generated_value <~ uniform min_val spike_range ;;
      rret (round1 generated_value)
    else
      let spike_range := max_val - (max_val - min_val) * 0.25 in
      generated_value <~ uniform spike_range max_val ;;
      rret (round1 generated_value)
  else
    let normal_ranges := NORMAL_VITAL_RANGES vital_type in
    generated_value <~ uniform (fst normal_ranges) (snd normal_ranges) ;;
    rret (round1 generated_value).

Definition _generate_emergency_patient_value (vital_type : VitalSignType)
    (min_val max_val : Q) : Rand Q :=
  critical <~ random ;;
  if Qltb critical 0.75 then
    side <~ random ;;
    if Qltb side 0.5 then
      let critical_range := min_val + (max_val - min_val) * 0.3 in
      generated_value <~ uniform min_val critical_range ;;
      rret (round1 generated_value)
    else
      let critical_range := max_val - (max_val - min_val) * 0.3 in
      generated_value <~ uniform critical_range max_val ;;
      rret (round1 generated_value)
  else
    let abnormal_ranges := ABNORMAL_VITAL_RANGES vital_type in
    generated_value <~ uniform (fst abnormal_ranges) (snd abnormal_ranges) ;;
    rret (round1 generated_value).

Definition generate_vital_sign_value (g : VitalSignsValueGenerator)
    (vital_type : VitalSignType) (simulation_mode : PatientSimulationMode)
  : Rand Q :=
  let '(minimum_value, maximum_value) :=
    get_vital_range_for_mode g vital_type simulation_mode in
  match simulation_mode with
  | NORMAL_HEALTHY_PATIENT =>
      _generate_normal_patient_value minimum_value maximum_value
  | ABNORMAL_CONDITION_PATIENT =>
      _generate_abnormal_patient_value vital_type minimum_value maximum_value
  | EMERGENCY_CRITICAL_PATIENT =>
      _generate_emergency_patient_value vital_type minimum_value maximum_value
  end.

(** Every stored override has min < max: what [set_custom_vital_range]
    maintains, starting from the empty table. *)
Definition overrides_ordered (g : VitalSignsValueGenerator) : Prop :=
  forall v lo hi, _custom_vital_ranges g !! v = Some (lo, hi) -> lo < hi.

(** ** data_models.py *)

Record PatientVitalSigns : Type := mkPatientVitalSigns {
  timestamp_iso_format : string;
  heart_rate_bpm : Z;
  blood_pressure_systolic_mmhg : Z;
  blood_pressure_diastolic_mmhg : Z;
  oxygen_saturation_percentage : Z;
  body_temperature_celsius : Q;
  respiratory_rate_per_minute : Z;
  simulation_mode_used : string;
  monitoring_device_identifier : string;
  patient_identifier : string;
  data_quality_score : option Q;
  signal_strength_indicator : option Z
}.

Record BroadcastingResult : Type := mkBroadcastingResult {
  destination_name : string;
  was_successful : bool;
  error_message : option string;
  response_status_code : option Z;
  transmission_timestamp : option string
}.

(** JSON-serialisable Python values; a [dict] keeps its insertion order. *)
#[warnings="-register-all"]
Inductive Json : Type :=
  | JNone
  | JBool (b : bool)
  | JInt (z : Z)
  | JFloat (q : Q)
  | JStr (s : string)
  | JDict (items : list (string * Json)).

Definition opt_json {A} (f : A -> Json) (o : option A) : Json :=
  match o with
  | Some a => f a
  | None => JNone
  end.

(** [d[key]] as an option. *)
Fixpoint dict_get (key : string) (items : list (string * Json)) : option Json :=
  match items with
  | [] => None
  | (k, v) :: rest => if String.eqb k key then Some v else dict_get key rest
  end.

(** [d[key] = value]: an existing key keeps its place. *)
Fixpoint dict_set (key : string) (value : Json) (items : list (string * Json))
  : list (string * Json) :=
  match items with
  | [] => [(key, value)]
  | (k, v) :: rest =>
      if String.eqb k key then (k, value) :: rest
      else (k, v) :: dict_set key value rest
  end.

(** [d.update(other)] *)
Definition dict_update (items other : list (string * Json)) : list (string * Json) :=
  fold_left (fun d kv => dict_set (fst kv) (snd kv) d) other items.

(** [key in payload] for a payload that is a dict. *)
Definition has_key (key : string) (payload : Json) : bool :=
  match payload with
  | JDict items => bool_decide (is_Some (dict_get key items))
  | _ => false
  end.

(** [payload[k1][k2]...] is present. *)
Fixpoint has_path (path : list string) (payload : Json) : bool :=
  match path with
  | [] => true
  | key :: rest =>
      match payload with
      | JDict items =>
          match dict_get key items with
          | Some v => has_path rest v
          | None => false
          end
      | _ => false
      end
  end.

Definition to_json_serializable_dict (self : PatientVitalSigns) : Json :=
  JDict [
    ("timestamp", JStr (timestamp_iso_format self));
    ("vitals", JDict [
      ("heart_rate", JInt (heart_rate_bpm self));
      ("bp_systolic", JInt (blood_pressure_systolic_mmhg self));
      ("bp_diastolic", JInt (blood_pressure_diastolic_mmhg self));
      ("spo2", JInt (oxygen_saturation_percentage self));
      ("temperature", JFloat (body_temperature_celsius self));
      ("respiratory_rate", JInt (respiratory_rate_per_minute self))
    ]);
    ("metadata", JDict [
      ("device_id", JStr (monitoring_device_identifier self));
      ("patient_id", JStr (patient_identifier self));
      ("mode", JStr (simulation_mode_used self));
      ("quality_score", opt_json JFloat (data_quality_score self));
      ("signal_strength", opt_json JInt (signal_strength_indicator self))
    ])
  ].

(** ** The wall clock

    [readings] holds the successive results of
    [datetime.now().isoformat()], [reads] how many were taken. *)
Record Clock : Type := mkClock {
  readings : nat -> string;
  reads : nat
}.

Definition now_isoformat (c : Clock) : string * Clock :=
  (readings c (reads c), mkClock (readings c) (S (reads c))).

Definition create_current_timestamp_reading
    (heart_rate bp_systolic bp_diastolic spo2 : Z) (temperature : Q)
    (respiratory_rate : Z) (mode : PatientSimulationMode)
    (device_id patient_id : string) (c : Clock) : PatientVitalSigns * Clock :=
  let (now, c) := now_isoformat c in
  (mkPatientVitalSigns (now +:+ "Z") heart_rate bp_systolic bp_diastolic spo2
     temperature respiratory_rate (mode_value mode) device_id patient_id
     None None, c).

(** ** data_broadcaster.py *)

(** What one call of [requests.post] does: a response, or one of the
    exceptions the retry loop tells apart, in the order of its [except]
    clauses.  [msg] is [str(e)]. *)
Inductive PostOutcome : Type :=
  | Response (status_code : Z) (text : string)
  | Timeout
  | ConnectionError
  | RequestException (msg : string)
  | UnexpectedException (msg : string).

Inductive IOEvent : Type :=
  | Posted (url : string) (json : Json) (timeout : Z)
           (headers : list (string * string))
  | Slept (seconds : Z).

(** The outside of the broadcaster: [outcomes] holds what the successive
    [requests.post] calls do, [posts] how many were made, [io_log] every
    call and every [time.sleep] in the order they happened. *)
Record World : Type := mkWorld {
  outcomes : nat -> PostOutcome;
  posts : nat;
  wall : Clock;
  io_log : list IOEvent
}.

Definition requests_post (url : string) (json : Json) (timeout : Z)
    (headers : list (string * string)) (w : World) : PostOutcome * World :=
  (outcomes w (posts w),
   mkWorld (outcomes w) (S (posts w)) (wall w)
           (io_log w ++ [Posted url json timeout headers])).

Definition time_sleep (seconds : Z) (w : World) : World :=
  mkWorld (outcomes w) (posts w) (wall w) (io_log w ++ [Slept seconds]).

Definition world_now (w : World) : string * World :=
  let (now, c) := now_isoformat (wall w) in
  (now, mkWorld (outcomes w) (posts w) c (io_log w)).

Definition post_headers : list (string * string) :=
  [("Content-Type", "application/json");
   ("User-Agent", "BioHarness-Vitals-Simulator/1.0")].

(** [f"{last_exception}"] *)
Definition format_last_exception (last_exception : option string) : string :=
  match last_exception with
  | Some s => s
  | None => "None"
  end.

(** The description the [except] clauses give of a failed attempt. *)
Definition describe_failure (endpoint_url : string) (timeout_seconds : Z)
    (o : PostOutcome) : option string :=
  match o with
  | Response _ _ => None
  | Timeout =>
      Some ("Request timeout after " +:+ pretty timeout_seconds +:+ " seconds")
  | ConnectionError => Some ("Connection error to " +:+ endpoint_url)
  | RequestException msg => Some ("Request error: " +:+ msg)
  | UnexpectedException msg => Some ("Unexpected error: " +:+ msg)
  end.

Definition success_codes : list Z := [200; 201; 202]%Z.

Definition is_success_code (status_code : Z) : bool :=
  bool_decide (status_code ∈ success_codes).

(** The [for attempt_number in range(max_retry_attempts)] loop with the
    [return] after it; [remaining] counts the iterations still to run. *)
Fixpoint retry_loop (destination_name endpoint_url : string)
    (payload_data : Json) (timeout_seconds max_retry_attempts : Z)
    (remaining : nat) (attempt_number : Z) (last_exception : option string)
    (w : World) : BroadcastingResult * World :=
  match remaining with
  | O =>
      let (now, w) := world_now w in
      (mkBroadcastingResult destination_name false
         (Some ("Failed after " +:+ pretty max_retry_attempts
                +:+ " attempts. Last error: "
                +:+ format_last_exception last_exception))
         None (Some now), w)
  | S remaining' =>
      let (outcome, w) :=
        requests_post endpoint_url payload_data timeout_seconds post_headers w in
      match outcome with
      | Response status_code text =>
          if is_success_code status_code then
            let (now, w) := world_now w in
            (mkBroadcastingResult destination_name true None
               (Some status_code) (Some now), w)
          else
            let (now, w) := world_now w in
            (mkBroadcastingResult destination_name false
               (Some ("HTTP " +:+ pretty status_code +:+ ": " +:+ text))
               (Some status_code) (Some now), w)
      | _ =>
          let last_exception :=
            describe_failure endpoint_url timeout_seconds outcome in
          let w :=
            if (attempt_number <? max_retry_attempts - 1)%Z
            then time_sleep BROADCASTING_RETRY_DELAY_SECONDS w
            else w in
          retry_loop destination_name endpoint_url payload_data
            timeout_seconds max_retry_attempts remaining'
            (attempt_number + 1)%Z last_exception w
      end
  end.

Definition _send_http_post_request_with_retries
    (destination_name endpoint_url : string) (payload_data : Json)
    (timeout_seconds max_retry_attempts : Z) (w : World)
  : BroadcastingResult * World :=
  retry_loop destination_name endpoint_url payload_data timeout_seconds
    max_retry_attempts (Z.to_nat max_retry_attempts) 0%Z None w.

Record VitalSignsDataBroadcaster : Type := mkBroadcaster {
  _rule_engine_endpoint_url : string;
  _ui_endpoint_url : string;
  _is_rule_engine_broadcasting_enabled : bool;
  _is_ui_broadcasting_enabled : bool
}.

(** [VitalSignsDataBroadcaster()] *)
Definition new_broadcaster : VitalSignsDataBroadcaster :=
  mkBroadcaster (RULE_ENGINE_BASE_URL +:+ RULE_ENGINE_VITALS_ENDPOINT)
    UI_HTTP_ENDPOINT ENABLE_RULE_ENGINE_BROADCASTING ENABLE_UI_BROADCASTING.

Definition broadcast_to_rule_engine (self : VitalSignsDataBroadcaster)
    (vital_signs_data : PatientVitalSigns) (w : World)
  : BroadcastingResult * World :=
  _send_http_post_request_with_retries "Rule Engine"
    (_rule_engine_endpoint_url self)
    (to_json_serializable_dict vital_signs_data)
    RULE_ENGINE_CONNECTION_TIMEOUT_SECONDS RULE_ENGINE_REQUEST_RETRY_COUNT w.

Definition broadcast_to_user_interface (self : VitalSignsDataBroadcaster)
    (vital_signs_data : PatientVitalSigns) (w : World)
  : BroadcastingResult * World :=
  _send_http_post_request_with_retries "User Interface"
    (_ui_endpoint_url self)
    (to_json_serializable_dict vital_signs_data)
    UI_CONNECTION_TIMEOUT_SECONDS MAX_BROADCASTING_RETRIES w.

Definition broadcast_vital_signs_to_all_destinations
    (self : VitalSignsDataBroadcaster) (vital_signs_data : PatientVitalSigns)
    (w : World) : list BroadcastingResult * World :=
  let broadcasting_results := [] in
  let (broadcasting_results, w) :=
    if _is_rule_engine_broadcasting_enabled self then
      let (rule_engine_result, w) :=
        broadcast_to_rule_engine self vital_signs_data w in
      (broadcasting_results ++ [rule_engine_result], w)
    else (broadcasting_results, w) in
  let (broadcasting_results, w) :=
    if _is_ui_broadcasting_enabled self then
      let (ui_result, w) :=
        broadcast_to_user_interface self vital_signs_data w in
      (broadcasting_results ++ [ui_result], w)
    else (broadcasting_results, w) in
  (broadcasting_results, w).

Definition set_rule_engine_endpoint (self : VitalSignsDataBroadcaster)
    (base_url endpoint_path : string) : VitalSignsDataBroadcaster :=
  mkBroadcaster (base_url +:+ endpoint_path) (_ui_endpoint_url self)
    (_is_rule_engine_broadcasting_enabled self)
    (_is_ui_broadcasting_enabled self).

Definition set_ui_endpoint (self : VitalSignsDataBroadcaster)
    (endpoint_url : string) : VitalSignsDataBroadcaster :=
  mkBroadcaster (_rule_engine_endpoint_url self) endpoint_url
    (_is_rule_engine_broadcasting_enabled self)
    (_is_ui_broadcasting_enabled self).

Definition enable_rule_engine_broadcasting (self : VitalSignsDataBroadcaster)
    (is_enabled : bool) : VitalSignsDataBroadcaster :=
  mkBroadcaster (_rule_engine_endpoint_url self) (_ui_endpoint_url self)
    is_enabled (_is_ui_broadcasting_enabled self).

Definition enable_ui_broadcasting (self : VitalSignsDataBroadcaster)
    (is_enabled : bool) : VitalSignsDataBroadcaster :=
  mkBroadcaster (_rule_engine_endpoint_url self) (_ui_endpoint_url self)
    (_is_rule_engine_broadcasting_enabled self) is_enabled.

(** ** rule_engine_client.py *)

Record RuleEngineIntegrationClient : Type := mkRuleEngineClient {
  _data_broadcaster : VitalSignsDataBroadcaster
}.

(** [RuleEngineIntegrationClient()] *)
Definition new_rule_engine_client : RuleEngineIntegrationClient :=
  mkRuleEngineClient new_broadcaster.

Definition _format_vital_signs_for_rule_engine (vital_signs : PatientVitalSigns)
    (w : World) : list (string * Json) * World :=
  let (now, w) := world_now w in
  ([("deviceId", JStr (monitoring_device_identifier vital_signs));
    ("patientId", JStr (patient_identifier vital_signs));
    ("timestamp", JStr (timestamp_iso_format vital_signs));
    ("readings", JDict [
      ("heartRate", JInt (heart_rate_bpm vital_signs));
      ("bloodPressure", JDict [
        ("systolic", JInt (blood_pressure_systolic_mmhg vital_signs));
        ("diastolic", JInt (blood_pressure_diastolic_mmhg vital_signs))
      ]);
      ("oxygenSaturation", JInt (oxygen_saturation_percentage vital_signs));
      ("bodyTemperature", JFloat (body_temperature_celsius vital_signs));
      ("respiratoryRate", JInt (respiratory_rate_per_minute vital_signs))
    ]);
    ("metadata", JDict [
      ("simulationMode", JStr (simulation_mode_used vital_signs));
      ("generatedAt", JStr now);
      ("dataSource", JStr "BioHarness_Simulator")
    ])], w).

Definition _determine_urgency_level (vital_signs : PatientVitalSigns) : bool :=
  let heart_rate_critical_low := 40%Z in
  let heart_rate_critical_high := 150%Z in
  let bp_systolic_critical_low := 70%Z in
  let bp_systolic_critical_high := 180%Z in
  let oxygen_saturation_critical := 85%Z in
  let temperature_critical_low := 35.0 in
  let temperature_critical_high := 40.0 in
  let respiratory_rate_critical_low := 8%Z in
  let respiratory_rate_critical_high := 30%Z in
  if (heart_rate_bpm vital_signs <? heart_rate_critical_low)%Z
     || (heart_rate_critical_high <? heart_rate_bpm vital_signs)%Z
  then true
  else if (blood_pressure_systolic_mmhg vital_signs <? bp_systolic_critical_low)%Z
          || (bp_systolic_critical_high <? blood_pressure_systolic_mmhg vital_signs)%Z
  then true
  else if (oxygen_saturation_percentage vital_signs <? oxygen_saturation_critical)%Z
  then true
  else if Qltb (body_temperature_celsius vital_signs) temperature_critical_low
          || Qltb temperature_critical_high (body_temperature_celsius vital_signs)
  then true
  else if (respiratory_rate_per_minute vital_signs <? respiratory_rate_critical_low)%Z
          || (respiratory_rate_critical_high <? respiratory_rate_per_minute vital_signs)%Z
  then true
  else if String.eqb (simulation_mode_used vital_signs) "emergency"
  then true
  else false.

(** [x or default] for an optional int: [None] and [0] are falsy. *)
Definition int_or (x : option Z) (default : Z) : Z :=
  match x with
  | Some z => if (z =? 0)%Z then default else z
  | None => default
  end.

(** [x or default] for an optional float: [None] and [0.0] are falsy. *)
Definition float_or (x : option Q) (default : Q) : Q :=
  match x with
  | Some q => if Qeq_bool q 0 then default else q
  | None => default
  end.

(** The dict the function builds in its local [rule_engine_payload]. *)
Definition rule_engine_payload_of (patient_vital_signs : PatientVitalSigns)
    (w : World) : Json * World :=
  let (rule_engine_payload, w) :=
    _format_vital_signs_for_rule_engine patient_vital_signs w in
  (JDict (dict_update rule_engine_payload [
    ("submission_source", JStr "BioHarness_Vitals_Simulator");
    ("requires_immediate_processing",
       JBool (_determine_urgency_level patient_vital_signs));
    ("data_quality_indicators", JDict [
      ("signal_strength",
         JInt (int_or (signal_strength_indicator patient_vital_signs) 100));
      ("data_completeness", JInt 100);
      ("measurement_confidence",
         JFloat (float_or (data_quality_score patient_vital_signs) 0.95))
    ])
  ]), w).

(** The local [rule_engine_payload] is built and then left unused: the call
    that sends passes [patient_vital_signs] itself. *)
Definition submit_vital_signs_for_rule_evaluation
    (self : RuleEngineIntegrationClient)
    (patient_vital_signs : PatientVitalSigns) (w : World)
  : BroadcastingResult * World :=
  let (rule_engine_payload, w) := rule_engine_payload_of patient_vital_signs w in
  broadcast_to_rule_engine (_data_broadcaster self) patient_vital_signs w.

(** The payloads of the POST requests of a log, oldest first. *)
Definition posted_payloads (log : list IOEvent) : list Json :=
  omap (fun e => match e with
                 | Posted _ json _ _ => Some json
                 | Slept _ => None
                 end) log.

Definition posted_urls (log : list IOEvent) : list string :=
  omap (fun e => match e with
                 | Posted url _ _ _ => Some url
                 | Slept _ => None
                 end) log.

Definition slept_seconds (log : list IOEvent) : list Z :=
  omap (fun e => match e with
                 | Posted _ _ _ _ => None
                 | Slept s => Some s
                 end) log.

(** The fields the rule engine's payload format calls for. *)
Definition rule_engine_enrichment_paths : list (list string) :=
  [ ["deviceId"]; ["patientId"];
    ["readings"; "heartRate"];
    ["readings"; "bloodPressure"; "systolic"];
    ["readings"; "bloodPressure"; "diastolic"];
    ["readings"; "oxygenSaturation"];
    ["readings"; "bodyTemperature"];
    ["readings"; "respiratoryRate"];
    ["metadata"; "simulationMode"];
    ["metadata"; "generatedAt"];
    ["metadata"; "dataSource"];
    ["submission_source"];
    ["requires_immediate_processing"];
    ["data_quality_indicators"] ].

Definition has_rule_engine_enrichment (payload : Json) : bool :=
  forallb (fun path => has_path path payload) rule_engine_enrichment_paths.

(** ** simulation_engine.py *)

(** What calling a registered callback does: it returns, or raises an
    [Exception] whose [str] is [msg].  What is raised outside [Exception]
    ([KeyboardInterrupt], [SystemExit]) passes the [except Exception] of the
    notification and is no outcome here. *)
Inductive CallOutcome : Type :=
  | Completed
  | Failed (msg : string).

(** The thread object [start] creates and starts. *)
Record Thread : Type := mkThread {
  thread_target : string;
  thread_daemon : bool;
  thread_name : string;
  thread_started : bool
}.

Section Engine.

(** The state the registered callbacks act on. *)
Variable SinkState : Type.

(** A registered callback: a function object, told from the others by
    [callback_id]. *)
Record Callback : Type := mkCallback {
  callback_id : nat;
  callback_call : PatientVitalSigns -> SinkState -> CallOutcome * SinkState
}.

Record PatientVitalsSimulationEngine : Type := mkEngine {
  _current_simulation_mode : PatientSimulationMode;
  _data_generation_interval_seconds : Z;
  _target_patient_identifier : string;
  _monitoring_device_identifier : string;
  _is_continuous_simulation_running : bool;
  _simulation_thread : option Thread;
  _vital_signs_generator : VitalSignsValueGenerator;
  _most_recent_vital_signs : option PatientVitalSigns;
  _data_broadcasting_callbacks : list Callback
}.

(** The outside of the engine: the random source, the clock, the state
    of the callbacks, what was printed, and which callback was called
    with which reading, oldest first. *)
Record Env : Type := mkEnv {
  rng : RandomSource;
  env_clock : Clock;
  sink_state : SinkState;
  stdout : list string;
  calls : list (nat * PatientVitalSigns)
}.

(** [PatientVitalsSimulationEngine()] *)
Definition new_engine : PatientVitalsSimulationEngine :=
  mkEngine NORMAL_HEALTHY_PATIENT DEFAULT_SIMULATION_INTERVAL_SECONDS
    DEFAULT_PATIENT_IDENTIFIER DEFAULT_DEVICE_IDENTIFIER false None
    new_generator None [].

Definition add_data_broadcasting_callback
    (self : PatientVitalsSimulationEngine) (callback_function : Callback)
  : PatientVitalsSimulationEngine :=
  mkEngine (_current_simulation_mode self)
    (_data_generation_interval_seconds self)
    (_target_patient_identifier self) (_monitoring_device_identifier self)
    (_is_continuous_simulation_running self) (_simulation_thread self)
    (_vital_signs_generator self) (_most_recent_vital_signs self)
    (_data_broadcasting_callbacks self ++ [callback_function]).

Definition set_simulation_mode (self : PatientVitalsSimulationEngine)
    (new_mode : PatientSimulationMode) : PatientVitalsSimulationEngine :=
  mkEngine new_mode
    (_data_generation_interval_seconds self)
    (_target_patient_identifier self) (_monitoring_device_identifier self)
    (_is_continuous_simulation_running self) (_simulation_thread self)
    (_vital_signs_generator self) (_most_recent_vital_signs self)
    (_data_broadcasting_callbacks self).

Definition set_custom_vital_sign_range (self : PatientVitalsSimulationEngine)
    (vital_type : VitalSignType) (minimum_value maximum_value : Q)
  : PyResult unit * PatientVitalsSimulationEngine :=
  let (outcome, g) :=
    set_custom_vital_range (_vital_signs_generator self) vital_type
      minimum_value maximum_value in
  (outcome,
   mkEngine (_current_simulation_mode self)
     (_data_generation_interval_seconds self)
     (_target_patient_identifier self) (_monitoring_device_identifier self)
     (_is_continuous_simulation_running self) (_simulation_thread self)
     g (_most_recent_vital_signs self) (_data_broadcasting_callbacks self)).

(** The [for callback_function in ...] loop with its [try]/[except]. *)
Fixpoint _notify_data_broadcasting_callbacks (callbacks : list Callback)
    (vital_signs : PatientVitalSigns) (env : Env) : Env :=
  match callbacks with
  | [] => env
  | callback_function :: rest =>
      let (outcome, s) := callback_call callback_function vital_signs
                            (sink_state env) in
      let env :=
        mkEnv (rng env) (env_clock env) s (stdout env)
          (calls env ++ [(callback_id callback_function, vital_signs)]) in
      let env :=
        match outcome with
        | Completed => env
        | Failed msg =>
            mkEnv (rng env) (env_clock env) (sink_state env)
              (stdout env ++ ["Error in data broadcasting callback: " +:+ msg])
              (calls env)
        end in
      _notify_data_broadcasting_callbacks rest vital_signs env
  end.

(** The six samples of one reading, in the order the code draws them. *)
Definition sample_all (g : VitalSignsValueGenerator)
    (mode : PatientSimulationMode) : Rand (Q * Q * Q * Q * Q * Q) :=
  heart_rate <~ generate_vital_sign_value g HEART_RATE mode ;;
  bp_systolic <~ generate_vital_sign_value g BLOOD_PRESSURE_SYSTOLIC mode ;;
  bp_diastolic <~ generate_vital_sign_value g BLOOD_PRESSURE_DIASTOLIC mode ;;
  oxygen_saturation <~ generate_vital_sign_value g OXYGEN_SATURATION mode ;;
  body_temperature <~ generate_vital_sign_value g BODY_TEMPERATURE mode ;;
  respiratory_rate <~ generate_vital_sign_value g RESPIRATORY_RATE mode ;;
  rret (heart_rate, bp_systolic, bp_diastolic, oxygen_saturation,
        body_temperature, respiratory_rate).

(** The samples are numbers, so [int] always has a result here; on the
    [nan] or [inf] the code can sample from a range that overflows, [int]
    raises and no reading is assembled. *)
Definition generate_single_vital_signs_reading
    (self : PatientVitalsSimulationEngine) (env : Env)
  : PatientVitalSigns * PatientVitalsSimulationEngine * Env :=
  let g := _vital_signs_generator self in
  let mode := _current_simulation_mode self in
  let '(heart_rate, bp_systolic, bp_diastolic, oxygen_saturation,
        body_temperature, respiratory_rate, r) := sample_all g mode (rng env) in
  let heart_rate := py_int heart_rate in
  let bp_systolic := py_int bp_systolic in
  let bp_diastolic := py_int bp_diastolic in
  let oxygen_saturation := py_int oxygen_saturation in
  let respiratory_rate := py_int respiratory_rate in
  let (vital_signs, c) :=
    create_current_timestamp_reading heart_rate bp_systolic bp_diastolic
      oxygen_saturation body_temperature respiratory_rate mode
      (_monitoring_device_identifier self) (_target_patient_identifier self)
      (env_clock env) in
  let env := mkEnv r c (sink_state env) (stdout env) (calls env) in
  let self :=
    mkEngine (_current_simulation_mode self)
      (_data_generation_interval_seconds self)
      (_target_patient_identifier self) (_monitoring_device_identifier self)
      (_is_continuous_simulation_running self) (_simulation_thread self)
      (_vital_signs_generator self) (Some vital_signs)
      (_data_broadcasting_callbacks self) in
  let env :=
    _notify_data_broadcasting_callbacks (_data_broadcasting_callbacks self)
      vital_signs env in
  (vital_signs, self, env).

Definition start_continuous_vital_signs_simulation
    (self : PatientVitalsSimulationEngine)
  : bool * PatientVitalsSimulationEngine :=
  if _is_continuous_simulation_running self then (false, self)
  else
    (true,
     mkEngine (_current_simulation_mode self)
       (_data_generation_interval_seconds self)
       (_target_patient_identifier self) (_monitoring_device_identifier self)
       true
       (Some (mkThread "_continuous_simulation_loop" true
                "VitalSignsSimulationThread" true))
       (_vital_signs_generator self) (_most_recent_vital_signs self)
       (_data_broadcasting_callbacks self)).

Definition stop_continuous_vital_signs_simulation
    (self : PatientVitalsSimulationEngine)
  : bool * PatientVitalsSimulationEngine :=
  if negb (_is_continuous_simulation_running self) then (false, self)
  else
    (true,
     mkEngine (_current_simulation_mode self)
       (_data_generation_interval_seconds self)
       (_target_patient_identifier self) (_monitoring_device_identifier self)
       false (_simulation_thread self)
       (_vital_signs_generator self) (_most_recent_vital_signs self)
       (_data_broadcasting_callbacks self)).

Definition is_simulation_currently_running
    (self : PatientVitalsSimulationEngine) : bool :=
  _is_continuous_simulation_running self.

End Engine.

Arguments callback_id {SinkState} _.
Arguments callback_call {SinkState} _ _ _.
Arguments mkCallback {SinkState} _ _.
Arguments mkEngine {SinkState} _ _ _ _ _ _ _ _ _.
Arguments mkEnv {SinkState} _ _ _ _ _.
Arguments _current_simulation_mode {SinkState} _.
Arguments _data_generation_interval_seconds {SinkState} _.
Arguments _target_patient_identifier {SinkState} _.
Arguments _monitoring_device_identifier {SinkState} _.
Arguments _is_continuous_simulation_running {SinkState} _.
Arguments _simulation_thread {SinkState} _.
Arguments _vital_signs_generator {SinkState} _.
Arguments _most_recent_vital_signs {SinkState} _.
Arguments _data_broadcasting_callbacks {SinkState} _.
Arguments rng {SinkState} _.
Arguments env_clock {SinkState} _.
Arguments sink_state {SinkState} _.
Arguments stdout {SinkState} _.
Arguments calls {SinkState} _.
Arguments new_engine {SinkState}.
Arguments add_data_broadcasting_callback {SinkState} _ _.
Arguments set_simulation_mode {SinkState} _ _.
Arguments set_custom_vital_sign_range {SinkState} _ _ _ _.
Arguments _notify_data_broadcasting_callbacks {SinkState} _ _ _.
Arguments generate_single_vital_signs_reading {SinkState} _ _.
Arguments start_continuous_vital_signs_simulation {SinkState} _.
Arguments stop_continuous_vital_signs_simulation {SinkState} _.
Arguments is_simulation_currently_running {SinkState} _.

(** ** Vocabulary of the statements *)

(** Both bounds of a range have at most one decimal digit. *)
Definition one_decimal_bounds (range : VitalValueRange) : Prop :=
  one_decimal (fst range) /\ one_decimal (snd range).

(** [z] is [x] without its fractional part: no further from zero than [x],
    and less than one away from it. *)
Definition truncation_of (x : Q) (z : Z) : Prop :=
  Qabs (inject_Z z) <= Qabs x /\ Qabs (x - inject_Z z) < 1.

(** An attempt that got no response at all. *)
Definition no_response (o : PostOutcome) : Prop :=
  match o with
  | Response _ _ => False
  | _ => True
  end.

(** What the loop logs for an attempt it retries, and for one it does not. *)
Definition retried_attempt (endpoint_url : string) (payload_data : Json)
    (timeout_seconds : Z) : list IOEvent :=
  [Posted endpoint_url payload_data timeout_seconds post_headers;
   Slept BROADCASTING_RETRY_DELAY_SECONDS].

Definition final_attempt (endpoint_url : string) (payload_data : Json)
    (timeout_seconds : Z) : list IOEvent :=
  [Posted endpoint_url payload_data timeout_seconds post_headers].

(** The result of an attempt that got a response. *)
Definition response_result (destination : string) (status_code : Z)
    (text now : string) : BroadcastingResult :=
  if is_success_code status_code
  then mkBroadcastingResult destination true None
         (Some status_code) (Some now)
  else mkBroadcastingResult destination false
         (Some ("HTTP " +:+ pretty status_code +:+ ": " +:+ text))
         (Some status_code) (Some now).

(** The result once the attempts are used up. *)
Definition exhausted_result (destination : string) (max_retry_attempts : Z)
    (last_exception : option string) (now : string) : BroadcastingResult :=
  mkBroadcastingResult destination false
    (Some ("Failed after " +:+ pretty max_retry_attempts
           +:+ " attempts. Last error: "
           +:+ format_last_exception last_exception))
    None (Some now).

(** The log of a loop that runs [remaining] attempts without a response. *)
Definition exhausted_log (endpoint_url : string) (payload_data : Json)
    (timeout_seconds : Z) (remaining : nat) : list IOEvent :=
  match remaining with
  | O => []
  | S n =>
      concat (replicate n
                (retried_attempt endpoint_url payload_data timeout_seconds))
      ++ final_attempt endpoint_url payload_data timeout_seconds
  end.

(** The error a loop of [remaining] unanswered attempts ends with. *)
Definition final_exception (endpoint_url : string) (timeout_seconds : Z)
    (last_exception : option string) (remaining : nat) (w : World)
  : option string :=
  match remaining with
  | O => last_exception
  | S n => describe_failure endpoint_url timeout_seconds
             (outcomes w (posts w + n))
  end.

(** The destinations a broadcaster has enabled, in the order it serves
    them, each with its name and URL. *)
Definition enabled_destinations (self : VitalSignsDataBroadcaster)
  : list (string * string) :=
  (if _is_rule_engine_broadcasting_enabled self
   then [("Rule Engine", _rule_engine_endpoint_url self)] else [])
  ++ (if _is_ui_broadcasting_enabled self
      then [("User Interface", _ui_endpoint_url self)] else []).

(** ** Sample inputs *)

Definition sample_clock : Clock := mkClock (fun _ => "2024-01-01T00:00:00") 0.

(** Every draw is 0.5. *)
Definition even_draws : RandomSource := mkRandomSource (fun _ => 0.5) 0.

(** A destination that times out once and then answers 200. *)
Definition slow_start_world : World :=
  mkWorld (fun n => match n with
                    | O => Timeout
                    | _ => Response 200 "OK"
                    end) 0 sample_clock [].

(** A destination that always answers 200. *)
Definition healthy_world : World :=
  mkWorld (fun _ => Response 200 "OK") 0 sample_clock [].

(** A destination nobody listens on. *)
Definition dead_world : World :=
  mkWorld (fun _ => ConnectionError) 0 sample_clock [].

Definition sample_reading : PatientVitalSigns :=
  mkPatientVitalSigns "2024-01-01T00:00:00Z" 72 118 76 98 36.6 16 "normal"
    "BioHarness_Sim_001" "patient_001" None None.

(** Three callbacks on a counter: the second one always raises. *)
Definition counting_callbacks : list (Callback nat) :=
  [mkCallback 1 (fun _ n => (Completed, S n));
   mkCallback 2 (fun _ n => (Failed "sink down", n));
   mkCallback 3 (fun _ n => (Completed, S n))].

(** ** The rest of the generator, the engine and the broadcaster *)

(** [get_all_custom_ranges]: a copy of the override table. *)
Definition get_all_custom_ranges (g : VitalSignsValueGenerator)
  : gmap VitalSignType VitalValueRange :=
  _custom_vital_ranges g.

Definition clear_all_custom_ranges (g : VitalSignsValueGenerator)
  : VitalSignsValueGenerator :=
  mkGenerator ∅.

(** [VitalSignType(value)] and [PatientSimulationMode(value)]: the member
    with that value, [None] where Python raises [ValueError]. *)
Definition all_vital_types : list VitalSignType :=
  [HEART_RATE; BLOOD_PRESSURE_SYSTOLIC; BLOOD_PRESSURE_DIASTOLIC;
   OXYGEN_SATURATION; BODY_TEMPERATURE; RESPIRATORY_RATE].

Definition all_modes : list PatientSimulationMode :=
  [NORMAL_HEALTHY_PATIENT; ABNORMAL_CONDITION_PATIENT;
   EMERGENCY_CRITICAL_PATIENT].

Definition VitalSignType_of_value (value : string) : option VitalSignType :=
  find (fun v => String.eqb (vital_value v) value) all_vital_types.

Definition PatientSimulationMode_of_value (value : string)
  : option PatientSimulationMode :=
  find (fun m => String.eqb (mode_value m) value) all_modes.

(** [list.remove(x)]: drops the first element equal to [x]; [None] where
    Python raises [ValueError].  Function objects are equal when they are
    the same object, which [callback_id] stands for. *)
Fixpoint list_remove {SinkState : Type} (x : Callback SinkState)
    (l : list (Callback SinkState)) : option (list (Callback SinkState)) :=
  match l with
  | [] => None
  | c :: rest =>
      if Nat.eqb (callback_id c) (callback_id x) then Some rest
      else match list_remove x rest with
           | Some rest' => Some (c :: rest')
           | None => None
           end
  end.

Definition set_data_generation_interval {SinkState : Type}
    (self : PatientVitalsSimulationEngine SinkState) (interval_seconds : Z)
  : PyResult unit * PatientVitalsSimulationEngine SinkState :=
  if (interval_seconds <? MINIMUM_SIMULATION_INTERVAL_SECONDS)%Z
  then (Raised (ValueError ("Interval must be at least "
                            +:+ pretty MINIMUM_SIMULATION_INTERVAL_SECONDS
                            +:+ " seconds")), self)
  else (Returned tt,
        mkEngine (_current_simulation_mode self) interval_seconds
          (_target_patient_identifier self)
          (_monitoring_device_identifier self)
          (_is_continuous_simulation_running self) (_simulation_thread self)
          (_vital_signs_generator self) (_most_recent_vital_signs self)
          (_data_broadcasting_callbacks self)).

Definition set_patient_identifier {SinkState : Type}
    (self : PatientVitalsSimulationEngine SinkState) (patient_id : string)
  : PatientVitalsSimulationEngine SinkState :=
  mkEngine (_current_simulation_mode self)
    (_data_generation_interval_seconds self) patient_id
    (_monitoring_device_identifier self)
    (_is_continuous_simulation_running self) (_simulation_thread self)
    (_vital_signs_generator self) (_most_recent_vital_signs self)
    (_data_broadcasting_callbacks self).

Definition set_device_identifier {SinkState : Type}
    (self : PatientVitalsSimulationEngine SinkState) (device_id : string)
  : PatientVitalsSimulationEngine SinkState :=
  mkEngine (_current_simulation_mode self)
    (_data_generation_interval_seconds self)
    (_target_patient_identifier self) device_id
    (_is_continuous_simulation_running self) (_simulation_thread self)
    (_vital_signs_generator self) (_most_recent_vital_signs self)
    (_data_broadcasting_callbacks self).

Definition remove_data_broadcasting_callback {SinkState : Type}
    (self : PatientVitalsSimulationEngine SinkState)
    (callback_function : Callback SinkState)
  : bool * PatientVitalsSimulationEngine SinkState :=
  match list_remove callback_function (_data_broadcasting_callbacks self) with
  | Some callbacks =>
      (true,
       mkEngine (_current_simulation_mode self)
         (_data_generation_interval_seconds self)
         (_target_patient_identifier self)
         (_monitoring_device_identifier self)
         (_is_continuous_simulation_running self) (_simulation_thread self)
         (_vital_signs_generator self) (_most_recent_vital_signs self)
         callbacks)
  | None => (false, self)
  end.

Definition remove_custom_vital_sign_range {SinkState : Type}
    (self : PatientVitalsSimulationEngine SinkState)
    (vital_type : VitalSignType)
  : bool * PatientVitalsSimulationEngine SinkState :=
  let (was_removed, g) :=
    remove_custom_vital_range (_vital_signs_generator self) vital_type in
  (was_removed,
   mkEngine (_current_simulation_mode self)
     (_data_generation_interval_seconds self)
     (_target_patient_identifier self) (_monitoring_device_identifier self)
     (_is_continuous_simulation_running self) (_simulation_thread self)
     g (_most_recent_vital_signs self) (_data_broadcasting_callbacks self)).

Definition get_most_recent_vital_signs {SinkState : Type}
    (self : PatientVitalsSimulationEngine SinkState)
  : option PatientVitalSigns :=
  _most_recent_vital_signs self.

(** The payload of the two connectivity tests. *)
Definition connectivity_test_payload (now : string) : Json :=
  JDict [("test", JBool true);
         ("timestamp", JStr now);
         ("message", JStr "Connectivity test from BioHarness Simulator")].

Definition test_rule_engine_connectivity (self : VitalSignsDataBroadcaster)
    (w : World) : BroadcastingResult * World :=
  let (now, w) := world_now w in
  _send_http_post_request_with_retries "Rule Engine (Test)"
    (_rule_engine_endpoint_url self) (connectivity_test_payload now)
    RULE_ENGINE_CONNECTION_TIMEOUT_SECONDS 1 w.

Definition test_ui_connectivity (self : VitalSignsDataBroadcaster)
    (w : World) : BroadcastingResult * World :=
  let (now, w) := world_now w in
  _send_http_post_request_with_retries "User Interface (Test)"
    (_ui_endpoint_url self) (connectivity_test_payload now)
    UI_CONNECTION_TIMEOUT_SECONDS 1 w.

Definition test_rule_engine_connection_and_authentication
    (self : RuleEngineIntegrationClient) (w : World)
  : BroadcastingResult * World :=
  test_rule_engine_connectivity (_data_broadcaster self) w.

Definition configure_rule_engine_endpoints (self : RuleEngineIntegrationClient)
    (base_url vitals_submission_endpoint : string)
  : RuleEngineIntegrationClient :=
  mkRuleEngineClient
    (set_rule_engine_endpoint (_data_broadcaster self) base_url
       vitals_submission_endpoint).

Definition enable_rule_engine_integration (self : RuleEngineIntegrationClient)
    (is_enabled : bool) : RuleEngineIntegrationClient :=
  mkRuleEngineClient
    (enable_rule_engine_broadcasting (_data_broadcaster self) is_enabled).

(** ** http_server.py: the broadcasting callback *)

(** [f"{x}"] of an optional string. *)
Definition format_optional (x : option string) : string :=
  match x with
  | Some s => s
  | None => "None"
  end.

(** The line [_broadcast_vital_signs_data] prints for one result. *)
Definition broadcast_report_line (result : BroadcastingResult) : string :=
  if was_successful result
  then "Successfully broadcast vitals to " +:+ destination_name result
  else "Failed to broadcast vitals to " +:+ destination_name result
       +:+ ": " +:+ format_optional (error_message result).

(** The callback the HTTP server registers with the engine.  It acts on
    the world of the broadcaster and on the lines it has printed.  The
    dispatch it calls returns in every case, so its [except] clause has
    nothing to catch. *)
Definition _broadcast_vital_signs_data (data_broadcaster : VitalSignsDataBroadcaster)
    (vital_signs : PatientVitalSigns) (s : World * list string)
  : CallOutcome * (World * list string) :=
  let (broadcasting_results, w) :=
    broadcast_vital_signs_to_all_destinations data_broadcaster vital_signs
      (fst s) in
  (Completed, (w, snd s ++ map broadcast_report_line broadcasting_results)).

(** ** http_server.py: request handlers *)

(** [asdict(self)]: the fields in the order of their declaration. *)
Definition to_dictionary (self : PatientVitalSigns) : Json :=
  JDict [
    ("timestamp_iso_format", JStr (timestamp_iso_format self));
    ("heart_rate_bpm", JInt (heart_rate_bpm self));
    ("blood_pressure_systolic_mmhg", JInt (blood_pressure_systolic_mmhg self));
    ("blood_pressure_diastolic_mmhg", JInt (blood_pressure_diastolic_mmhg self));
    ("oxygen_saturation_percentage", JInt (oxygen_saturation_percentage self));
    ("body_temperature_celsius", JFloat (body_temperature_celsius self));
    ("respiratory_rate_per_minute", JInt (respiratory_rate_per_minute self));
    ("simulation_mode_used", JStr (simulation_mode_used self));
    ("monitoring_device_identifier", JStr (monitoring_device_identifier self));
    ("patient_identifier", JStr (patient_identifier self));
    ("data_quality_score", opt_json JFloat (data_quality_score self));
    ("signal_strength_indicator", opt_json JInt (signal_strength_indicator self))
  ].

(** What a handler answers: the status code it sends and the dictionary
    it hands to [json.dumps].  The headers, which are the same for every
    answer, and the serialisation are left out. *)
Record JsonResponse : Type := mkJsonResponse {
  sent_status : Z;
  sent_data : list (string * Json)
}.

Definition _send_json_response_with_status
    (response_data : list (string * Json)) (status_code : Z) : JsonResponse :=
  mkJsonResponse status_code response_data.

(** The handlers read the same clock as the engine. *)
Definition _get_current_iso_timestamp {SinkState : Type} (env : Env SinkState)
  : string * Env SinkState :=
  let (now, c) := now_isoformat (env_clock env) in
  (now +:+ "Z", mkEnv (rng env) c (sink_state env) (stdout env) (calls env)).

Definition _send_error_response_with_message {SinkState : Type}
    (message : string) (status_code : Z) (env : Env SinkState)
  : JsonResponse * Env SinkState :=
  let (timestamp, env) := _get_current_iso_timestamp env in
  (_send_json_response_with_status
     [("error", JStr message);
      ("status", JStr "failed");
      ("timestamp", JStr timestamp)] status_code, env).

Definition _handle_get_current_vitals_request {SinkState : Type}
    (simulation_engine : PatientVitalsSimulationEngine SinkState)
    (env : Env SinkState) : JsonResponse * Env SinkState :=
  match get_most_recent_vital_signs simulation_engine with
  | Some current_vitals =>
      let (timestamp, env) := _get_current_iso_timestamp env in
      (_send_json_response_with_status
         [("status", JStr "success");
          ("vital_signs", to_dictionary current_vitals);
          ("timestamp", JStr timestamp)] 200, env)
  | None =>
      let (timestamp, env) := _get_current_iso_timestamp env in
      (_send_json_response_with_status
         [("status", JStr "no_data");
          ("message", JStr "No vital signs have been generated yet");
          ("timestamp", JStr timestamp)] 200, env)
  end.

Definition _handle_generate_single_vitals_request {SinkState : Type}
    (simulation_engine : PatientVitalsSimulationEngine SinkState)
    (env : Env SinkState)
  : JsonResponse * PatientVitalsSimulationEngine SinkState * Env SinkState :=
  let '(vital_signs, simulation_engine, env) :=
    generate_single_vital_signs_reading simulation_engine env in
  let (timestamp, env) := _get_current_iso_timestamp env in
  (_send_json_response_with_status
     [("status", JStr "success");
      ("vital_signs", to_dictionary vital_signs);
      ("timestamp", JStr timestamp)] 200, simulation_engine, env).

Definition _handle_start_continuous_simulation_request {SinkState : Type}
    (simulation_engine : PatientVitalsSimulationEngine SinkState)
    (env : Env SinkState)
  : JsonResponse * PatientVitalsSimulationEngine SinkState * Env SinkState :=
  let (was_started, simulation_engine) :=
    start_continuous_vital_signs_simulation simulation_engine in
  if was_started then
    let (timestamp, env) := _get_current_iso_timestamp env in
    (_send_json_response_with_status
       [("status", JStr "success");
        ("message", JStr "Continuous vital signs simulation started");
        ("is_running", JBool true);
        ("timestamp", JStr timestamp)] 200, simulation_engine, env)
  else
    let (timestamp, env) := _get_current_iso_timestamp env in
    (_send_json_response_with_status
       [("status", JStr "already_running");
        ("message", JStr "Simulation is already running");
        ("is_running", JBool true);
        ("timestamp", JStr timestamp)] 200, simulation_engine, env).

Definition _handle_stop_continuous_simulation_request {SinkState : Type}
    (simulation_engine : PatientVitalsSimulationEngine SinkState)
    (env : Env SinkState)
  : JsonResponse * PatientVitalsSimulationEngine SinkState * Env SinkState :=
  let (was_stopped, simulation_engine) :=
    stop_continuous_vital_signs_simulation simulation_engine in
  if was_stopped then
    let (timestamp, env) := _get_current_iso_timestamp env in
    (_send_json_response_with_status
       [("status", JStr "success");
        ("message", JStr "Continuous vital signs simulation stopped");
        ("is_running", JBool false);
        ("timestamp", JStr timestamp)] 200, simulation_engine, env)
  else
    let (timestamp, env) := _get_current_iso_timestamp env in
    (_send_json_response_with_status
       [("status", JStr "not_running");
        ("message", JStr "Simulation was not running");
        ("is_running", JBool false);
        ("timestamp", JStr timestamp)] 200, simulation_engine, env).

(** [[vt.value for vt in VitalSignType]] and how an f-string prints it. *)
Definition valid_vital_types : list string := map vital_value all_vital_types.

Definition valid_vital_types_repr : string :=
  "['heart_rate', 'bp_systolic', 'bp_diastolic', 'spo2', 'temperature', 'respiratory_rate']".

(** [None] where [VitalSignType(vital_type_name)] raises and the handler
    does not return. *)
Definition _handle_remove_custom_vital_range_request {SinkState : Type}
    (simulation_engine : PatientVitalsSimulationEngine SinkState)
    (vital_type_name : string) (env : Env SinkState)
  : option (JsonResponse * PatientVitalsSimulationEngine SinkState
            * Env SinkState) :=
  if negb (bool_decide (vital_type_name ∈ valid_vital_types)) then
    let (response, env) :=
      _send_error_response_with_message
        ("Invalid vital type. Valid types: " +:+ valid_vital_types_repr)
        400 env in
    Some (response, simulation_engine, env)
  else
    match VitalSignType_of_value vital_type_name with
    | None => None
    | Some vital_type =>
        let (was_removed, simulation_engine) :=
          remove_custom_vital_sign_range simulation_engine vital_type in
        if was_removed then
          let (timestamp, env) := _get_current_iso_timestamp env in
          Some (_send_json_response_with_status
                  [("status", JStr "success");
                   ("message", JStr ("Custom range removed for "
                                     +:+ vital_type_name));
                   ("vital_type", JStr vital_type_name);
                   ("timestamp", JStr timestamp)] 200,
                simulation_engine, env)
        else
          let (timestamp, env) := _get_current_iso_timestamp env in
          Some (_send_json_response_with_status
                  [("status", JStr "not_found");
                   ("message", JStr ("No custom range was set for "
                                     +:+ vital_type_name));
                   ("vital_type", JStr vital_type_name);
                   ("timestamp", JStr timestamp)] 200,
                simulation_engine, env)
    end.

(** ** Calls in sequence *)

(** The calls a user of the engine can make, with arguments of the types
    the signatures announce: the interval is an integer, the bounds of a
    range are numbers (a float that is NaN or infinite is not one of
    them). *)
Inductive EngineCall (SinkState : Type) : Type :=
  | CallSetMode (new_mode : PatientSimulationMode)
  | CallSetInterval (interval_seconds : Z)
  | CallSetPatient (patient_id : string)
  | CallSetDevice (device_id : string)
  | CallSetCustomRange (vital_type : VitalSignType) (minimum_value maximum_value : Q)
  | CallRemoveCustomRange (vital_type : VitalSignType)
  | CallAddCallback (callback_function : Callback SinkState)
  | CallRemoveCallback (callback_function : Callback SinkState)
  | CallStart
  | CallStop
  | CallGenerate.
Arguments CallSetMode {SinkState} _.
Arguments CallSetInterval {SinkState} _.
Arguments CallSetPatient {SinkState} _.
Arguments CallSetDevice {SinkState} _.
Arguments CallSetCustomRange {SinkState} _ _ _.
Arguments CallRemoveCustomRange {SinkState} _.
Arguments CallAddCallback {SinkState} _.
Arguments CallRemoveCallback {SinkState} _.
Arguments CallStart {SinkState}.
Arguments CallStop {SinkState}.
Arguments CallGenerate {SinkState}.

(** One call on an engine and its outside; what the call returns or raises
    is dropped, the engine and the outside it leaves are kept. *)
Definition run_call {SinkState : Type} (st : PatientVitalsSimulationEngine SinkState * Env SinkState)
    (call : EngineCall SinkState)
  : PatientVitalsSimulationEngine SinkState * Env SinkState :=
  let (self, env) := st in
  match call with
  | CallSetMode new_mode => (set_simulation_mode self new_mode, env)
  | CallSetInterval interval_seconds =>
      (snd (set_data_generation_interval self interval_seconds), env)
  | CallSetPatient patient_id => (set_patient_identifier self patient_id, env)
  | CallSetDevice device_id => (set_device_identifier self device_id, env)
  | CallSetCustomRange vital_type minimum_value maximum_value =>
      (snd (set_custom_vital_sign_range self vital_type minimum_value
              maximum_value), env)
  | CallRemoveCustomRange vital_type =>
      (snd (remove_custom_vital_sign_range self vital_type), env)
  | CallAddCallback callback_function =>
      (add_data_broadcasting_callback self callback_function, env)
  | CallRemoveCallback callback_function =>
      (snd (remove_data_broadcasting_callback self callback_function), env)
  | CallStart => (snd (start_continuous_vital_signs_simulation self), env)
  | CallStop => (snd (stop_continuous_vital_signs_simulation self), env)
  | CallGenerate =>
      let '(_, self, env) := generate_single_vital_signs_reading self env in
      (self, env)
  end.

Definition run_calls {SinkState : Type}
    (st : PatientVitalsSimulationEngine SinkState * Env SinkState)
    (calls : list (EngineCall SinkState))
  : PatientVitalsSimulationEngine SinkState * Env SinkState :=
  fold_left run_call calls st.

(** How often a callback with the identity [id] is registered, and how
    often one was called. *)
Definition registrations {SinkState : Type} (id : nat)
    (callbacks : list (Callback SinkState)) : nat :=
  length (filter (fun c => callback_id c = id) callbacks).

Definition invocations (id : nat) (calls : list (nat * PatientVitalSigns)) : nat :=
  length (filter (fun c => fst c = id) calls).

(** The seconds slept in a log, in total. *)
Definition total_slept (log : list IOEvent) : Z :=
  foldr Z.add 0%Z (slept_seconds log).

(** The chance of an extreme sample and the share of the range it is
    taken from, by mode. *)
Definition extreme_chance (mode : PatientSimulationMode) : Q :=
  match mode with
  | EMERGENCY_CRITICAL_PATIENT => 0.75
  | _ => 0.3
  end.

Definition extreme_share (mode : PatientSimulationMode) : Q :=
  match mode with
  | EMERGENCY_CRITICAL_PATIENT => 0.3
  | _ => 0.25
  end.

(** A result is a success with one of the success codes and no error
    message, or a failure with an error message and no success code. *)
Definition result_consistent (result : BroadcastingResult) : Prop :=
  (was_successful result = true
   /\ error_message result = None
   /\ exists status_code,
        response_status_code result = Some status_code
        /\ status_code ∈ success_codes)
  \/
  (was_successful result = false
   /\ is_Some (error_message result)
   /\ forall status_code,
        response_status_code result = Some status_code ->
        status_code ∉ success_codes).

(** ** Ranges on which the sampling is meant *)

(** Both bounds of a range are at most [limit] in magnitude. *)
Definition magnitude_within (limit : Q) (range : VitalValueRange) : Prop :=
  Qabs (fst range) <= limit /\ Qabs (snd range) <= limit.

(** Up to this magnitude of the bounds no float operation of the sampling
    overflows: sums and differences of two bounds stay far below the
    largest float. *)
Definition float_safe_limit : Q := inject_Z (10 ^ 300).

(** Up to this magnitude of the bounds the floats of the sampling are
    within 0.01 of the exact results. *)
Definition float_close_limit : Q := 1000000.

(** ** What the callbacks do *)

(** The effect of calling each callback of a list once, in order, with
    the same reading, each on the state the one before it left, whether
    that one returned or raised: the state the last one leaves, and the
    line printed for each one that raised. *)
Fixpoint callbacks_effect {SinkState : Type}
    (callbacks : list (Callback SinkState)) (vital_signs : PatientVitalSigns)
    (s : SinkState) : SinkState * list string :=
  match callbacks with
  | [] => (s, [])
  | callback_function :: rest =>
      let (outcome, s1) := callback_call callback_function vital_signs s in
      let (s2, lines) := callbacks_effect rest vital_signs s1 in
      (s2,
       match outcome with
       | Completed => lines
       | Failed msg => ("Error in data broadcasting callback: " +:+ msg) :: lines
       end)
  end.

(** The line the engine prints when a callback raised. *)
Definition callback_error_lines (outcome : CallOutcome) : list string :=
  match outcome with
  | Completed => []
  | Failed msg => ["Error in data broadcasting callback: " +:+ msg]
  end.

(** * Properties *)

(** ** Rounding and truncation *)

(** Division by a literal, as the multiplication [lra] understands. *)
Ltac literal_division :=
  unfold Qdiv in *;
  change (/ 10) with 0.1 in *;
  change (/ 2) with 0.5 in *.

Lemma Qltb_lt x y : Qltb x y = true <-> x < y.
Proof.
  unfold Qltb. rewrite negb_true_iff, <- not_true_iff_false, Qle_bool_iff.
  split; [apply Qnot_le_lt | apply Qlt_not_le].
Qed.

Lemma Qltb_ge x y : Qltb x y = false <-> y <= x.
Proof.
  unfold Qltb. rewrite negb_false_iff. apply Qle_bool_iff.
Qed.

Lemma round_half_even_lower (a : Z) (y : Q) :
  inject_Z a <= y -> (a <= round_half_even y)%Z.
Proof.
  intros Hay.
  assert (a <= Qfloor y)%Z as Hfl.
  { rewrite <- (Qfloor_Z a). by apply Qfloor_resp_le. }
  unfold round_half_even.
  destruct (Qcompare _ _); [destruct (Z.even _) | |]; lia.
Qed.

Lemma round_half_even_upper (b : Z) (y : Q) :
  y <= inject_Z b -> (round_half_even y <= b)%Z.
Proof.
  intros Hyb.
  assert (Qfloor y <= b)%Z as Hfl.
  { rewrite <- (Qfloor_Z b). by apply Qfloor_resp_le. }
  assert (Qfloor y = b \/ Qfloor y + 1 <= b)%Z as [Heq | Hlt] by lia.
  - (* the floor is b, so y = b and the fractional part is 0 *)
    pose proof (Qfloor_le y) as Hle. rewrite Heq in Hle.
    unfold round_half_even. rewrite Heq.
    assert (y - inject_Z b < 0.5) as Hfrac by lra.
    destruct (Qcompare _ _) eqn:Hc; [| lia |].
    + apply Qeq_alt in Hc. lra.
    + apply Qgt_alt in Hc. lra.
  - unfold round_half_even.
    destruct (Qcompare _ _); [destruct (Z.even _) | |]; lia.
Qed.

Lemma round_half_even_near (y : Q) :
  y - 0.5 <= inject_Z (round_half_even y) /\
  inject_Z (round_half_even y) <= y + 0.5.
Proof.
  pose proof (Qfloor_le y) as Hlo. pose proof (Qlt_floor y) as Hhi.
  rewrite inject_Z_plus in Hhi.
  change (inject_Z 1) with 1 in Hhi.
  unfold round_half_even.
  destruct (Qcompare _ _) eqn:Hc.
  - apply Qeq_alt in Hc.
    destruct (Z.even _); rewrite ?inject_Z_plus; change (inject_Z 1) with 1; lra.
  - apply Qlt_alt in Hc. lra.
  - apply Qgt_alt in Hc. rewrite inject_Z_plus. change (inject_Z 1) with 1. lra.
Qed.

Lemma round1_one_decimal (x : Q) : one_decimal (round1 x).
Proof. exists (round_half_even (x * 10)). reflexivity. Qed.

(** Rounding moves a value by at most half a tenth. *)
Lemma round1_near (x : Q) : x - 0.05 <= round1 x /\ round1 x <= x + 0.05.
Proof.
  destruct (round_half_even_near (x * 10)) as [Hlo Hhi].
  unfold round1. literal_division. lra.
Qed.

(** Rounding to one decimal never crosses a bound that has one decimal. *)
Lemma round1_within (range : VitalValueRange) (x : Q) :
  one_decimal (fst range) -> one_decimal (snd range) ->
  within range x -> within range (round1 x).
Proof.
  intros [a Ha] [b Hb] [Hlo Hhi]. unfold within, round1.
  rewrite Ha, Hb in *. literal_division.
  assert (inject_Z a <= x * 10) as Hlo' by lra.
  assert (x * 10 <= inject_Z b) as Hhi' by lra.
  apply round_half_even_lower in Hlo'. apply round_half_even_upper in Hhi'.
  rewrite Zle_Qle in Hlo', Hhi'. lra.
Qed.

(** [int] drops the fractional part: toward zero on both sides. *)
Lemma py_int_truncates (x : Q) :
  (0 <= x -> inject_Z (py_int x) <= x /\ x < inject_Z (py_int x) + 1) /\
  (x <= 0 -> inject_Z (py_int x) - 1 < x /\ x <= inject_Z (py_int x)).
Proof.
  destruct x as [n d]. unfold py_int, Qle, Qlt. simpl.
  rewrite !Z.mul_1_r.
  pose proof (Z.quot_rem' n (Z.pos d)) as Hqr.
  split; intros Hs.
  - pose proof (Z.rem_bound_pos n (Z.pos d)) as Hb.
    assert (0 <= n)%Z as Hn by lia. specialize (Hb Hn ltac:(lia)).
    nia.
  - assert (n <= 0)%Z as Hn by lia.
    pose proof (Z.rem_bound_pos_neg n (Z.pos d) ltac:(lia) Hn) as Hb.
    nia.
Qed.

(** ** The value generator *)

Lemma one_decimal_literal (k : Z) (x : Q) : x == inject_Z k / 10 -> one_decimal x.
Proof. intros H. by exists k. Qed.

Lemma predefined_ranges_ordered mode vital_type :
  fst (_predefined_vital_ranges mode vital_type)
  < snd (_predefined_vital_ranges mode vital_type).
Proof. destruct mode, vital_type; reflexivity. Qed.

Lemma predefined_ranges_one_decimal mode vital_type :
  one_decimal_bounds (_predefined_vital_ranges mode vital_type).
Proof.
  destruct mode, vital_type; split; simpl;
    match goal with
    | |- one_decimal ?x =>
        apply (one_decimal_literal (Qfloor (x * 10))); reflexivity
    end.
Qed.

Lemma active_range_ordered g vital_type mode :
  overrides_ordered g ->
  fst (get_vital_range_for_mode g vital_type mode)
  < snd (get_vital_range_for_mode g vital_type mode).
Proof.
  intros Hg. unfold get_vital_range_for_mode.
  destruct (_custom_vital_ranges g !! vital_type) as [[lo hi] |] eqn:Hlk.
  - simpl. by apply (Hg vital_type).
  - apply predefined_ranges_ordered.
Qed.

Lemma new_generator_ordered : overrides_ordered new_generator.
Proof. intros v lo hi H. simpl in H. by rewrite lookup_empty in H. Qed.

(** The invariant of the override table is kept by every assignment. *)
Lemma set_custom_vital_range_ordered g vital_type lo hi :
  overrides_ordered g ->
  overrides_ordered (snd (set_custom_vital_range g vital_type lo hi)).
Proof.
  intros Hg. unfold set_custom_vital_range.
  destruct (Qle_bool hi lo) eqn:Hle; [done |].
  intros v lo' hi'. simpl. rewrite lookup_insert.
  case_decide as Hv.
  - intros [= <- <-]. apply Qltb_lt. unfold Qltb. by rewrite Hle.
  - apply Hg.
Qed.

Lemma uniform_within (a b : Q) (r : RandomSource) :
  a <= b -> unit_draws r -> within (a, b) (fst (uniform a b r)).
Proof.
  intros Hab Hr. destruct (Hr (drawn r)) as [H0 H1].
  unfold within, uniform, rbind, random, rret. simpl. split; nra.
Qed.

Lemma unit_draws_advance (r : RandomSource) (n : nat) :
  unit_draws r -> unit_draws (mkRandomSource (tape r) n).
Proof. intros Hr k. apply Hr. Qed.

(** The clamped, unrounded sample of normal mode is inside the range. *)
Lemma normal_sample_within (min_val max_val x : Q) :
  min_val <= max_val ->
  within (min_val, max_val) (Qmax min_val (Qmin max_val x)).
Proof.
  intros Hle. split; simpl.
  - apply Q.le_max_l.
  - apply Q.max_lub; [exact Hle | apply Q.le_min_l].
Qed.

(** The lower or upper [fraction] of a range lies inside the range. *)
Lemma extreme_sample_within (min_val max_val fraction : Q) (r : RandomSource) :
  min_val <= max_val -> 0 <= fraction -> fraction <= 1 -> unit_draws r ->
  within (min_val, max_val)
    (fst (uniform min_val (min_val + (max_val - min_val) * fraction) r)) /\
  within (min_val, max_val)
    (fst (uniform (max_val - (max_val - min_val) * fraction) max_val r)).
Proof.
  intros Hle Hf0 Hf1 Hr.
  assert (0 <= (max_val - min_val) * fraction <= max_val - min_val) as Hw by nra.
  split.
  - destruct (uniform_within min_val (min_val + (max_val - min_val) * fraction) r)
      as [Hlo Hhi]; [lra | done |].
    simpl in *. split; simpl; lra.
  - destruct (uniform_within (max_val - (max_val - min_val) * fraction) max_val r)
      as [Hlo Hhi]; [lra | done |].
    simpl in *. split; simpl; lra.
Qed.

(** C5: an override with min >= max is refused with a [ValueError] and the
    generator, with every override it already holds, stays as it was; an
    override with min < max is stored for its vital type, leaves the other
    vital types alone, and is the range every mode then resolves to. *)
Theorem set_custom_vital_range_validates
    (g : VitalSignsValueGenerator) (vital_type : VitalSignType)
    (minimum_value maximum_value : Q) :
  (maximum_value <= minimum_value ->
     set_custom_vital_range g vital_type minimum_value maximum_value
     = (Raised (ValueError "Minimum value must be less than maximum value"), g))
  /\
  (minimum_value < maximum_value ->
     exists g',
       set_custom_vital_range g vital_type minimum_value maximum_value
       = (Returned tt, g') /\
       _custom_vital_ranges g' !! vital_type
       = Some (minimum_value, maximum_value) /\
       (forall other, other <> vital_type ->
          _custom_vital_ranges g' !! other = _custom_vital_ranges g !! other) /\
       (forall mode,
          get_vital_range_for_mode g' vital_type mode
          = (minimum_value, maximum_value))).
Proof.
  unfold set_custom_vital_range. split.
  - intros Hge. apply Qle_bool_iff in Hge. by rewrite Hge.
  - intros Hlt. apply Qltb_lt in Hlt. unfold Qltb in Hlt.
    apply negb_true_iff in Hlt. rewrite Hlt.
    eexists. split; [reflexivity |]. simpl. repeat split.
    + apply lookup_insert_eq.
    + intros other Hne. by apply lookup_insert_ne.
    + intros mode. unfold get_vital_range_for_mode. simpl.
      by rewrite lookup_insert_eq.
Qed.

(** A refused and an accepted override of the heart-rate range, the first
    made on a generator that already holds one. *)
Lemma set_custom_vital_range_validates_witness :
  let g := mkGenerator {[ HEART_RATE := (50, 90) ]} in
  (80 <= 80 /\
   set_custom_vital_range g HEART_RATE 80 80
   = (Raised (ValueError "Minimum value must be less than maximum value"), g))
  /\
  (55 < 120 /\
   exists g',
     set_custom_vital_range g HEART_RATE 55 120 = (Returned tt, g') /\
     forall mode, get_vital_range_for_mode g' HEART_RATE mode = (55, 120)).
Proof.
  intros g. split.
  - assert (80 <= 80) as H by (unfold Qle; simpl; lia).
    split; [exact H |].
    exact (proj1 (set_custom_vital_range_validates g HEART_RATE 80 80) H).
  - assert (55 < 120) as H by reflexivity.
    split; [exact H |].
    destruct (proj2 (set_custom_vital_range_validates g HEART_RATE 55 120) H)
      as (g' & Hset & _ & _ & Hget).
    exists g'. split; [exact Hset | exact Hget].
Defined.


(** Rounding alone can leave a range whose bounds have more than one
    decimal: with the override (0.01, 0.04) normal mode samples 0.025 and
    returns 0.0. *)
Lemma rounding_leaves_fine_override :
  let g := snd (set_custom_vital_range new_generator BODY_TEMPERATURE 0.01 0.04) in
  let r := even_draws in
  get_vital_range_for_mode g BODY_TEMPERATURE NORMAL_HEALTHY_PATIENT
  = (0.01, 0.04) /\
  fst (generate_vital_sign_value g BODY_TEMPERATURE NORMAL_HEALTHY_PATIENT r)
  == 0.
Proof. split; reflexivity. Qed.

(** The value each mode returns, by the draws it reads. *)
Lemma normal_value_eq (min_val max_val : Q) (r : RandomSource) :
  fst (_generate_normal_patient_value min_val max_val r)
  = round1 (Qmax min_val (Qmin max_val
      (fst (uniform ((min_val + max_val) / 2 - (max_val - min_val) * 0.15)
                    ((min_val + max_val) / 2 + (max_val - min_val) * 0.15) r)))).
Proof. reflexivity. Qed.

Lemma abnormal_value_eq (vital_type : VitalSignType) (min_val max_val : Q)
    (r : RandomSource) :
  let r1 := mkRandomSource (tape r) (S (drawn r)) in
  let r2 := mkRandomSource (tape r) (S (S (drawn r))) in
  fst (_generate_abnormal_patient_value vital_type min_val max_val r)
  = if Qltb (tape r (drawn r)) 0.3 then
      if Qltb (tape r (S (drawn r))) 0.5
      then round1 (fst (uniform min_val
                          (min_val + (max_val - min_val) * 0.25) r2))
      else round1 (fst (uniform (max_val - (max_val - min_val) * 0.25)
                          max_val r2))
    else round1 (fst (uniform (fst (NORMAL_VITAL_RANGES vital_type))
                        (snd (NORMAL_VITAL_RANGES vital_type)) r1)).
Proof.
  intros r1 r2. unfold _generate_abnormal_patient_value, rbind, random.
  destruct (Qltb (tape r (drawn r)) 0.3); [| reflexivity].
  cbn [tape drawn].
  destruct (Qltb (tape r (S (drawn r))) 0.5); reflexivity.
Qed.

Lemma emergency_value_eq (vital_type : VitalSignType) (min_val max_val : Q)
    (r : RandomSource) :
  let r1 := mkRandomSource (tape r) (S (drawn r)) in
  let r2 := mkRandomSource (tape r) (S (S (drawn r))) in
  fst (_generate_emergency_patient_value vital_type min_val max_val r)
  = if Qltb (tape r (drawn r)) 0.75 then
      if Qltb (tape r (S (drawn r))) 0.5
      then round1 (fst (uniform min_val
                          (min_val + (max_val - min_val) * 0.3) r2))
      else round1 (fst (uniform (max_val - (max_val - min_val) * 0.3)
                          max_val r2))
    else round1 (fst (uniform (fst (ABNORMAL_VITAL_RANGES vital_type))
                        (snd (ABNORMAL_VITAL_RANGES vital_type)) r1)).
Proof.
  intros r1 r2. unfold _generate_emergency_patient_value, rbind, random.
  destruct (Qltb (tape r (drawn r)) 0.75); [| reflexivity].
  cbn [tape drawn].
  destruct (Qltb (tape r (S (drawn r))) 0.5); reflexivity.
Qed.

(** Whatever the mode, what comes back went through [round1]. *)
Lemma generate_vital_sign_value_one_decimal g vital_type simulation_mode r :
  one_decimal (fst (generate_vital_sign_value g vital_type simulation_mode r)).
Proof.
  unfold generate_vital_sign_value.
  destruct (get_vital_range_for_mode _ _ _) as [min_val max_val].
  destruct simulation_mode.
  - rewrite normal_value_eq. apply round1_one_decimal.
  - rewrite abnormal_value_eq.
    repeat destruct (Qltb _ _); apply round1_one_decimal.
  - rewrite emergency_value_eq.
    repeat destruct (Qltb _ _); apply round1_one_decimal.
Qed.

(** A sample of a static range, rounded, stays in that range. *)
Lemma static_sample_within mode vital_type r :
  unit_draws r ->
  within (_predefined_vital_ranges mode vital_type)
    (round1 (fst (uniform (fst (_predefined_vital_ranges mode vital_type))
                    (snd (_predefined_vital_ranges mode vital_type)) r))).
Proof.
  intros Hr.
  destruct (predefined_ranges_one_decimal mode vital_type).
  apply round1_within; [done | done |].
  pose proof (predefined_ranges_ordered mode vital_type) as Hord.
  apply Qlt_le_weak in Hord.
  pose proof (uniform_within _ _ r Hord Hr) as Hw.
  exact Hw.
Qed.

(** The static ranges are far below both limits on the size of bounds. *)
Lemma predefined_ranges_magnitude mode vital_type :
  magnitude_within float_close_limit (_predefined_vital_ranges mode vital_type)
  /\ magnitude_within float_safe_limit (_predefined_vital_ranges mode vital_type).
Proof.
  destruct mode, vital_type; repeat split; vm_compute; discriminate.
Qed.



(** ** The retry loop *)

Section RetryLoop.

Variables (destination endpoint_url : string) (payload_data : Json).
Variables (timeout_seconds max_retry_attempts : Z).

Local Abbreviation loop :=
  (retry_loop destination endpoint_url payload_data
     timeout_seconds max_retry_attempts).
Local Abbreviation retried :=
  (retried_attempt endpoint_url payload_data timeout_seconds).
Local Abbreviation final :=
  (final_attempt endpoint_url payload_data timeout_seconds).

Lemma retry_loop_response (k : nat) :
  forall (remaining : nat) (attempt_number : Z) (last_exception : option string)
         (w : World) (status_code : Z) (text : string),
    (k < remaining)%nat ->
    (attempt_number + Z.of_nat remaining = max_retry_attempts)%Z ->
    (forall j, (j < k)%nat -> no_response (outcomes w (posts w + j))) ->
    outcomes w (posts w + k) = Response status_code text ->
    let (result, w') := loop remaining attempt_number last_exception w in
    result = response_result destination status_code text (readings (wall w) (reads (wall w)))
    /\ outcomes w' = outcomes w
    /\ posts w' = (posts w + S k)%nat
    /\ reads (wall w') = S (reads (wall w))
    /\ readings (wall w') = readings (wall w)
    /\ io_log w' = io_log w ++ concat (replicate k retried) ++ final.
Proof.
  induction k as [| k IH]; intros remaining attempt_number last_exception w
    status_code text Hk Hinv Hfail Hresp.
  - destruct remaining as [| remaining]; [lia |].
    rewrite Nat.add_0_r in Hresp. cbn [retry_loop requests_post].
    rewrite Hresp. unfold response_result.
    destruct (is_success_code status_code); cbn;
      repeat split; try reflexivity; lia.
  - destruct remaining as [| remaining]; [lia |].
    pose proof (Hfail 0%nat ltac:(lia)) as H0. rewrite Nat.add_0_r in H0.
    cbn [retry_loop requests_post].
    assert ((attempt_number <? max_retry_attempts - 1)%Z = true) as Hsleep
      by (apply Z.ltb_lt; lia).
    rewrite Hsleep.
    set (w1 := time_sleep _ _).
    specialize (IH remaining (attempt_number + 1)%Z
                  (describe_failure endpoint_url timeout_seconds
                     (outcomes w (posts w)))
                  w1 status_code text ltac:(lia) ltac:(lia)).
    assert (forall j, (j < k)%nat -> no_response (outcomes w1 (posts w1 + j)))
      as Hfail1.
    { intros j Hj. cbn. replace (S (posts w + j)) with (posts w + S j)%nat by lia.
      apply Hfail. lia. }
    assert (outcomes w1 (posts w1 + k) = Response status_code text) as Hresp1.
    { cbn. replace (S (posts w + k)) with (posts w + S k)%nat by lia. done. }
    specialize (IH Hfail1 Hresp1).
    destruct (outcomes w (posts w)) eqn:Ho; [done | | | |];
      destruct (loop remaining _ _ w1) as [result w'];
      destruct IH as (-> & -> & -> & -> & -> & ->); cbn;
      (repeat split; try reflexivity; [lia |]);
      rewrite <- !app_assoc; reflexivity.
Qed.

Lemma retry_loop_exhausted (remaining : nat) :
  forall (attempt_number : Z) (last_exception : option string) (w : World),
    (remaining <> 0%nat ->
     (attempt_number + Z.of_nat remaining = max_retry_attempts)%Z) ->
    (forall j, (j < remaining)%nat -> no_response (outcomes w (posts w + j))) ->
    let (result, w') := loop remaining attempt_number last_exception w in
    result = exhausted_result destination max_retry_attempts
               (final_exception endpoint_url timeout_seconds last_exception
                  remaining w)
               (readings (wall w) (reads (wall w)))
    /\ outcomes w' = outcomes w
    /\ posts w' = (posts w + remaining)%nat
    /\ reads (wall w') = S (reads (wall w))
    /\ readings (wall w') = readings (wall w)
    /\ io_log w' = io_log w
                 ++ exhausted_log endpoint_url payload_data timeout_seconds
                      remaining.
Proof.
  induction remaining as [| remaining IH];
    intros attempt_number last_exception w Hinv Hfail.
  - cbn. rewrite app_nil_r. repeat split; try reflexivity; lia.
  - specialize (Hinv ltac:(lia)).
    pose proof (Hfail 0%nat ltac:(lia)) as H0. rewrite Nat.add_0_r in H0.
    cbn [retry_loop requests_post].
    destruct remaining as [| remaining].
    + (* the last attempt: no sleep *)
      assert ((attempt_number <? max_retry_attempts - 1)%Z = false) as Hsleep
        by (apply Z.ltb_ge; lia).
      rewrite Hsleep. cbn [final_exception]. rewrite Nat.add_0_r.
      destruct (outcomes w (posts w)) eqn:Ho; [done | | | |]; cbn;
        (repeat split; try reflexivity; lia).
    + assert ((attempt_number <? max_retry_attempts - 1)%Z = true) as Hsleep
        by (apply Z.ltb_lt; lia).
      rewrite Hsleep.
      set (w1 := time_sleep _ _).
      specialize (IH (attempt_number + 1)%Z
                    (describe_failure endpoint_url timeout_seconds
                       (outcomes w (posts w)))
                    w1 ltac:(lia)).
      assert (forall j, (j < S remaining)%nat ->
                no_response (outcomes w1 (posts w1 + j))) as Hfail1.
      { intros j Hj. cbn.
        replace (S (posts w + j)) with (posts w + S j)%nat by lia.
        apply Hfail. lia. }
      specialize (IH Hfail1).
      assert (final_exception endpoint_url timeout_seconds
                (describe_failure endpoint_url timeout_seconds
                   (outcomes w (posts w))) (S remaining) w1
              = final_exception endpoint_url timeout_seconds last_exception
                  (S (S remaining)) w) as Hlast.
      { cbn. by replace (S (posts w + remaining))
               with (posts w + S remaining)%nat by lia. }
      rewrite Hlast in IH.
      destruct (outcomes w (posts w)) eqn:Ho; [done | | | |];
        destruct (loop (S remaining) _ _ w1) as [result w'];
        destruct IH as (-> & -> & -> & -> & -> & ->);
        (repeat split; try reflexivity; [cbn; lia |]);
        cbn; rewrite <- !app_assoc; reflexivity.
Qed.

(** Whatever the destination does, the loop posts between one and
    [remaining] times (not at all when [remaining] is 0), always the same
    payload to the same URL, and names the destination in its result. *)
Lemma retry_loop_log (remaining : nat) :
  forall (attempt_number : Z) (last_exception : option string) (w : World),
    let (result, w') := loop remaining attempt_number last_exception w in
    exists (n : nat) (new : list IOEvent),
      (n <= remaining)%nat
      /\ (remaining <> 0%nat -> n <> 0%nat)
      /\ posts w' = (posts w + n)%nat
      /\ outcomes w' = outcomes w
      /\ io_log w' = io_log w ++ new
      /\ posted_urls new = replicate n endpoint_url
      /\ posted_payloads new = replicate n payload_data
      /\ destination_name result = destination.
Proof.
  induction remaining as [| remaining IH];
    intros attempt_number last_exception w.
  - cbn. exists 0%nat, []. rewrite app_nil_r.
    repeat split; try reflexivity; lia.
  - cbn [retry_loop requests_post].
    destruct (outcomes w (posts w)) as [status_code text | | | |] eqn:Ho.
    1: { destruct (is_success_code status_code); cbn;
           exists 1%nat, final;
           repeat split; try reflexivity; lia. }
    all: match goal with
         | IH : forall a l w, _ |- context [retry_loop _ _ _ _ _ ?r ?a ?l ?w1] =>
             specialize (IH a l w1);
             destruct (retry_loop _ _ _ _ _ r a l w1) as [result w'];
             destruct IH as (n & new & Hn & _ & Hp & Ho' & Hlog & Hu & Hpl & Hd)
         end.
    all: destruct (attempt_number <? max_retry_attempts - 1)%Z; cbn in Hp, Ho', Hlog.
    all: try (exists (S n),
                (Posted endpoint_url payload_data timeout_seconds post_headers
                   :: Slept BROADCASTING_RETRY_DELAY_SECONDS :: new);
              rewrite <- !app_assoc in Hlog;
              repeat split; [lia | lia | lia | done | done | | | done];
              cbn; unfold posted_urls, posted_payloads in *; congruence).
    all: exists (S n),
           (Posted endpoint_url payload_data timeout_seconds post_headers :: new);
         rewrite <- !app_assoc in Hlog;
         repeat split; [lia | lia | lia | done | done | | | done];
         cbn; unfold posted_urls, posted_payloads in *; congruence.
Qed.

End RetryLoop.

(** ** Delivery *)



(** C10: with a budget of zero or less the routine posts nothing and
    sleeps nothing; it reads the clock once and returns a failure without
    a status code whose message gives the budget and [None] as last
    error. *)
Theorem send_without_budget
    (destination endpoint_url : string) (payload_data : Json)
    (timeout_seconds max_retry_attempts : Z) (w : World) :
  (max_retry_attempts <= 0)%Z ->
  let sent := _send_http_post_request_with_retries destination endpoint_url
                payload_data timeout_seconds max_retry_attempts w in
  fst sent
  = mkBroadcastingResult destination false
      (Some ("Failed after " +:+ pretty max_retry_attempts
             +:+ " attempts. Last error: None"))
      None (Some (readings (wall w) (reads (wall w))))
  /\ posts (snd sent) = posts w
  /\ io_log (snd sent) = io_log w.
Proof.
  intros Hmax sent. subst sent.
  unfold _send_http_post_request_with_retries.
  replace (Z.to_nat max_retry_attempts) with 0%nat by lia.
  repeat split.
Qed.

(** A budget of zero and a negative one. *)
Lemma send_without_budget_witness :
  let w := healthy_world in
  ((0 <= 0)%Z
   /\ error_message
        (fst (_send_http_post_request_with_retries "Rule Engine"
                "http://localhost:3000/api/vitals/stream" (JDict []) 5 0 w))
      = Some "Failed after 0 attempts. Last error: None")
  /\
  ((-2 <= 0)%Z
   /\ fst (_send_http_post_request_with_retries "Rule Engine"
             "http://localhost:3000/api/vitals/stream" (JDict []) 5 (-2) w)
      = mkBroadcastingResult "Rule Engine" false
          (Some "Failed after -2 attempts. Last error: None")
          None (Some "2024-01-01T00:00:00")).
Proof.
  intros w.
  assert (0 <= 0)%Z as H0 by lia.
  assert (-2 <= 0)%Z as H2 by lia.
  split; (split; [assumption |]).
  - exact (f_equal error_message
             (proj1 (send_without_budget "Rule Engine"
                       "http://localhost:3000/api/vitals/stream" (JDict [])
                       5 0 w H0))).
  - exact (proj1 (send_without_budget "Rule Engine"
                    "http://localhost:3000/api/vitals/stream" (JDict [])
                    5 (-2) w H2)).
Defined.

(** What a send leaves in the log, whatever the destination does. *)
Lemma send_log (destination endpoint_url : string) (payload_data : Json)
    (timeout_seconds max_retry_attempts : Z) (w : World) :
  let sent := _send_http_post_request_with_retries destination endpoint_url
                payload_data timeout_seconds max_retry_attempts w in
  exists (n : nat) (new : list IOEvent),
    (n <= Z.to_nat max_retry_attempts)%nat
    /\ (Z.to_nat max_retry_attempts <> 0%nat -> n <> 0%nat)
    /\ io_log (snd sent) = io_log w ++ new
    /\ posted_urls new = replicate n endpoint_url
    /\ posted_payloads new = replicate n payload_data
    /\ destination_name (fst sent) = destination.
Proof.
  intros sent. subst sent. unfold _send_http_post_request_with_retries.
  pose proof (retry_loop_log destination endpoint_url payload_data
                timeout_seconds max_retry_attempts
                (Z.to_nat max_retry_attempts) 0%Z None w) as H.
  destruct (retry_loop _ _ _ _ _ _ _ _ w) as [result w'].
  destruct H as (n & new & Hn & Hpos & _ & _ & Hlog & Hurls & Hpay & Hdest).
  exists n, new. by repeat split.
Qed.

(** Each of the two deliveries posts at least once, only to its own URL,
    only the generic payload of the reading. *)
Lemma broadcast_to_rule_engine_log self vital_signs_data w :
  let sent := broadcast_to_rule_engine self vital_signs_data w in
  exists (n : nat) (new : list IOEvent),
    n <> 0%nat
    /\ io_log (snd sent) = io_log w ++ new
    /\ posted_urls new = replicate n (_rule_engine_endpoint_url self)
    /\ posted_payloads new
       = replicate n (to_json_serializable_dict vital_signs_data)
    /\ destination_name (fst sent) = "Rule Engine".
Proof.
  destruct (send_log "Rule Engine" (_rule_engine_endpoint_url self)
              (to_json_serializable_dict vital_signs_data)
              RULE_ENGINE_CONNECTION_TIMEOUT_SECONDS
              RULE_ENGINE_REQUEST_RETRY_COUNT w)
    as (n & new & _ & Hpos & Hlog & Hurls & Hpay & Hdest).
  exists n, new. repeat split; try done. by apply Hpos.
Qed.

Lemma broadcast_to_user_interface_log self vital_signs_data w :
  let sent := broadcast_to_user_interface self vital_signs_data w in
  exists (n : nat) (new : list IOEvent),
    n <> 0%nat
    /\ io_log (snd sent) = io_log w ++ new
    /\ posted_urls new = replicate n (_ui_endpoint_url self)
    /\ posted_payloads new
       = replicate n (to_json_serializable_dict vital_signs_data)
    /\ destination_name (fst sent) = "User Interface".
Proof.
  destruct (send_log "User Interface" (_ui_endpoint_url self)
              (to_json_serializable_dict vital_signs_data)
              UI_CONNECTION_TIMEOUT_SECONDS MAX_BROADCASTING_RETRIES w)
    as (n & new & _ & Hpos & Hlog & Hurls & Hpay & Hdest).
  exists n, new. repeat split; try done. by apply Hpos.
Qed.

(** C7: a dispatch returns one result per enabled destination, named after
    it and in the order rule engine, UI; a URL is posted to exactly when it
    is the URL of an enabled destination, whatever the outcomes of the
    attempts; with the rule engine disabled and the UI enabled the only
    result is the one of the UI delivery. *)
Theorem broadcast_serves_enabled_destinations
    (self : VitalSignsDataBroadcaster) (vital_signs_data : PatientVitalSigns)
    (w : World) :
  let sent := broadcast_vital_signs_to_all_destinations self vital_signs_data w in
  let results := fst sent in
  map destination_name results = map fst (enabled_destinations self)
  /\ length results = length (enabled_destinations self)
  /\ (exists new : list IOEvent,
        io_log (snd sent) = io_log w ++ new
        /\ forall url : string,
             url ∈ posted_urls new
             <-> url ∈ map snd (enabled_destinations self))
  /\ (_is_rule_engine_broadcasting_enabled self = false ->
      _is_ui_broadcasting_enabled self = true ->
      results = [fst (broadcast_to_user_interface self vital_signs_data w)]
      /\ map destination_name results = ["User Interface"]).
Proof.
  intros sent results. subst results sent.
  unfold broadcast_vital_signs_to_all_destinations, enabled_destinations.
  destruct (_is_rule_engine_broadcasting_enabled self) eqn:Hre;
    destruct (_is_ui_broadcasting_enabled self) eqn:Hui.
  - (* both enabled *)
    pose proof (broadcast_to_rule_engine_log self vital_signs_data w) as H1.
    destruct (broadcast_to_rule_engine self vital_signs_data w) as [r1 w1].
    pose proof (broadcast_to_user_interface_log self vital_signs_data w1) as H2.
    destruct (broadcast_to_user_interface self vital_signs_data w1) as [r2 w2].
    cbn [fst snd] in *.
    destruct H1 as (n1 & new1 & Hn1 & Hlog1 & Hurls1 & _ & Hd1).
    destruct H2 as (n2 & new2 & Hn2 & Hlog2 & Hurls2 & _ & Hd2).
    split; [cbn; by rewrite Hd1, Hd2 |]. split; [done |]. split; [| done].
    exists (new1 ++ new2). split.
    + by rewrite Hlog2, Hlog1, app_assoc.
    + intros url. unfold posted_urls in *. rewrite omap_app, Hurls1, Hurls2.
      rewrite elem_of_app, !elem_of_replicate. cbn.
      rewrite elem_of_cons, list_elem_of_singleton. tauto.
  - (* rule engine only *)
    pose proof (broadcast_to_rule_engine_log self vital_signs_data w) as H1.
    destruct (broadcast_to_rule_engine self vital_signs_data w) as [r1 w1].
    cbn [fst snd] in *.
    destruct H1 as (n1 & new1 & Hn1 & Hlog1 & Hurls1 & _ & Hd1).
    split; [cbn; by rewrite Hd1 |]. split; [done |]. split; [| done].
    exists new1. split; [done |].
    intros url. rewrite Hurls1, elem_of_replicate. cbn.
    rewrite list_elem_of_singleton. tauto.
  - (* UI only *)
    pose proof (broadcast_to_user_interface_log self vital_signs_data w) as H2.
    destruct (broadcast_to_user_interface self vital_signs_data w) as [r2 w2].
    cbn [fst snd] in *.
    destruct H2 as (n2 & new2 & Hn2 & Hlog2 & Hurls2 & _ & Hd2).
    split; [cbn; by rewrite Hd2 |]. split; [done |]. split.
    + exists new2. split; [done |].
      intros url. rewrite Hurls2, elem_of_replicate. cbn.
      rewrite list_elem_of_singleton. tauto.
    + intros _ _. split; [done |]. cbn. by rewrite Hd2.
  - (* none *)
    cbn. split; [done |]. split; [done |]. split; [| done].
    exists []. split; [by rewrite app_nil_r |].
    intros url. cbn. done.
Qed.

(** Rule engine disabled, UI enabled, and nobody listening on the UI
    endpoint: one result, the failed UI delivery. *)
Lemma broadcast_serves_enabled_destinations_witness :
  let self := enable_rule_engine_broadcasting new_broadcaster false in
  let results :=
    fst (broadcast_vital_signs_to_all_destinations self sample_reading
           dead_world) in
  _is_rule_engine_broadcasting_enabled self = false
  /\ _is_ui_broadcasting_enabled self = true
  /\ results = [fst (broadcast_to_user_interface self sample_reading dead_world)]
  /\ map destination_name results = ["User Interface"].
Proof.
  intros self results.
  assert (_is_rule_engine_broadcasting_enabled self = false) as Hre
    by reflexivity.
  assert (_is_ui_broadcasting_enabled self = true) as Hui by reflexivity.
  split; [exact Hre |]. split; [exact Hui |].
  exact (proj2 (proj2 (proj2
           (broadcast_serves_enabled_destinations self sample_reading
              dead_world))) Hre Hui).
Defined.

(** C3: the payload the submission builds has every enrichment field, but
    what it posts, at least once, is always the generic payload of the
    reading, and that one has none of the top-level enrichment keys. *)
Theorem submit_posts_generic_payload
    (self : RuleEngineIntegrationClient)
    (patient_vital_signs : PatientVitalSigns) (w : World) :
  let sent := submit_vital_signs_for_rule_evaluation self patient_vital_signs w in
  let generic := to_json_serializable_dict patient_vital_signs in
  has_rule_engine_enrichment (fst (rule_engine_payload_of patient_vital_signs w))
  = true
  /\ (exists (n : nat) (new : list IOEvent),
        n <> 0%nat
        /\ io_log (snd sent) = io_log w ++ new
        /\ posted_payloads new = replicate n generic)
  /\ has_rule_engine_enrichment generic = false
  /\ has_key "deviceId" generic = false
  /\ has_key "patientId" generic = false
  /\ has_key "readings" generic = false
  /\ has_key "submission_source" generic = false
  /\ has_key "requires_immediate_processing" generic = false
  /\ has_key "data_quality_indicators" generic = false.
Proof.
  intros sent generic. split; [reflexivity |].
  split; [| repeat split].
  subst sent. unfold submit_vital_signs_for_rule_evaluation.
  destruct (rule_engine_payload_of patient_vital_signs w) as [payload w1] eqn:Hp.
  assert (io_log w1 = io_log w) as Hlog1.
  { unfold rule_engine_payload_of, _format_vital_signs_for_rule_engine,
      world_now in Hp. cbn in Hp. by inversion Hp. }
  destruct (broadcast_to_rule_engine_log (_data_broadcaster self)
              patient_vital_signs w1) as (n & new & Hn & Hlog & _ & Hpay & _).
  exists n, new. rewrite Hlog, Hlog1. done.
Qed.

(** The submission of a sample reading to a healthy rule engine posts the
    generic payload once. *)
Example submit_sample_reading :
  posted_payloads
    (io_log (snd (submit_vital_signs_for_rule_evaluation new_rule_engine_client
                    sample_reading healthy_world)))
  = [to_json_serializable_dict sample_reading]
  /\ has_rule_engine_enrichment (to_json_serializable_dict sample_reading)
     = false.
Proof. split; reflexivity. Qed.

(** ** Urgency *)

Lemma if_true_else (c x : bool) : (if c then true else x) = c || x.
Proof. by destruct c. Qed.

(** C8: the flag the submission computes for a reading, and stores under
    [requires_immediate_processing] in the payload it builds, is true
    exactly when one of the critical thresholds is crossed or the mode of
    the reading is emergency. *)
Theorem determine_urgency_level_thresholds (vital_signs : PatientVitalSigns) :
  (forall w : World,
     exists items : list (string * Json),
       fst (rule_engine_payload_of vital_signs w) = JDict items
       /\ dict_get "requires_immediate_processing" items
          = Some (JBool (_determine_urgency_level vital_signs)))
  /\
  (_determine_urgency_level vital_signs = true
   <->
   (heart_rate_bpm vital_signs < 40)%Z
   \/ (150 < heart_rate_bpm vital_signs)%Z
   \/ (blood_pressure_systolic_mmhg vital_signs < 70)%Z
   \/ (180 < blood_pressure_systolic_mmhg vital_signs)%Z
   \/ (oxygen_saturation_percentage vital_signs < 85)%Z
   \/ body_temperature_celsius vital_signs < 35.0
   \/ 40.0 < body_temperature_celsius vital_signs
   \/ (respiratory_rate_per_minute vital_signs < 8)%Z
   \/ (30 < respiratory_rate_per_minute vital_signs)%Z
   \/ simulation_mode_used vital_signs = "emergency").
Proof.
  split.
  - intros w. eexists. split; reflexivity.
  - unfold _determine_urgency_level. cbv zeta.
    rewrite !if_true_else, orb_false_r, !orb_true_iff, !Z.ltb_lt, !Qltb_lt,
      String.eqb_eq.
    tauto.
Qed.

(** ** The engine *)

Section EngineProperties.

Context {SinkState : Type}.

(** The notification calls every callback of the list once, in order, with
    the same reading, and touches neither the random source nor the
    clock. *)
Lemma notify_calls_every_callback (callbacks : list (Callback SinkState))
    (vital_signs : PatientVitalSigns) :
  forall env : Env SinkState,
    let env' := _notify_data_broadcasting_callbacks callbacks vital_signs env in
    calls env'
    = calls env ++ map (fun cb => (callback_id cb, vital_signs)) callbacks
    /\ rng env' = rng env
    /\ env_clock env' = env_clock env.
Proof.
  induction callbacks as [| callback_function rest IH]; intros env.
  - cbn. by rewrite app_nil_r.
  - cbn [_notify_data_broadcasting_callbacks].
    destruct (callback_call callback_function vital_signs (sink_state env))
      as [[| msg] s]; cbn zeta;
      match goal with
      | |- context [_notify_data_broadcasting_callbacks rest vital_signs ?e] =>
          destruct (IH e) as (-> & -> & ->)
      end; cbn; by rewrite <- app_assoc.
Qed.

(** The effect of a list of callbacks, piece by piece. *)
Lemma callbacks_effect_app (before after : list (Callback SinkState))
    (vital_signs : PatientVitalSigns) (s : SinkState) :
  callbacks_effect (before ++ after) vital_signs s
  = (fst (callbacks_effect after vital_signs
            (fst (callbacks_effect before vital_signs s))),
     snd (callbacks_effect before vital_signs s)
     ++ snd (callbacks_effect after vital_signs
               (fst (callbacks_effect before vital_signs s)))).
Proof.
  revert s. induction before as [| cb rest IH]; intros s.
  - cbn. by destruct (callbacks_effect after vital_signs s).
  - cbn [app callbacks_effect].
    destruct (callback_call cb vital_signs s) as [outcome s1].
    rewrite IH.
    destruct (callbacks_effect rest vital_signs s1) as [s2 lines].
    cbn [fst snd]. by destruct outcome.
Qed.

Lemma callbacks_effect_cons (cb : Callback SinkState)
    (after : list (Callback SinkState)) (vital_signs : PatientVitalSigns)
    (s : SinkState) :
  callbacks_effect (cb :: after) vital_signs s
  = (fst (callbacks_effect after vital_signs
            (snd (callback_call cb vital_signs s))),
     callback_error_lines (fst (callback_call cb vital_signs s))
     ++ snd (callbacks_effect after vital_signs
               (snd (callback_call cb vital_signs s)))).
Proof.
  cbn [callbacks_effect].
  destruct (callback_call cb vital_signs s) as [outcome s1].
  cbn [fst snd].
  destruct (callbacks_effect after vital_signs s1) as [s2 lines].
  destruct outcome; reflexivity.
Qed.

(** The notification loop applies the callbacks: the state it leaves them
    in and the lines it prints are those of [callbacks_effect]. *)
Lemma notify_effect (callbacks : list (Callback SinkState))
    (vital_signs : PatientVitalSigns) :
  forall env : Env SinkState,
    let env' := _notify_data_broadcasting_callbacks callbacks vital_signs env in
    sink_state env'
    = fst (callbacks_effect callbacks vital_signs (sink_state env))
    /\ stdout env'
       = stdout env
         ++ snd (callbacks_effect callbacks vital_signs (sink_state env)).
Proof.
  induction callbacks as [| callback_function rest IH]; intros env.
  - cbn. by rewrite app_nil_r.
  - cbn [_notify_data_broadcasting_callbacks callbacks_effect].
    destruct (callback_call callback_function vital_signs (sink_state env))
      as [[| msg] s]; cbn zeta;
      match goal with
      | |- context [_notify_data_broadcasting_callbacks rest vital_signs ?e] =>
          destruct (IH e) as (-> & ->)
      end; cbn [sink_state stdout];
      destruct (callbacks_effect rest vital_signs s) as [s2 lines];
      cbn [fst snd]; [done |].
    by rewrite <- app_assoc.
Qed.


(** C6: [start] returns true exactly when the engine was idle and then
    leaves it running; on a running engine it returns false and changes
    nothing, so a second [start] returns false.  [stop] returns true
    exactly when the engine was running and then leaves it idle; on an
    idle engine it returns false and changes nothing. *)
Theorem start_stop_state_machine (self : PatientVitalsSimulationEngine SinkState) :
  let started := start_continuous_vital_signs_simulation self in
  let stopped := stop_continuous_vital_signs_simulation self in
  (fst started = true <-> is_simulation_currently_running self = false)
  /\ (is_simulation_currently_running self = false ->
      is_simulation_currently_running (snd started) = true
      /\ fst (start_continuous_vital_signs_simulation (snd started)) = false)
  /\ (is_simulation_currently_running self = true -> started = (false, self))
  /\ (fst stopped = true <-> is_simulation_currently_running self = true)
  /\ (is_simulation_currently_running self = true ->
      is_simulation_currently_running (snd stopped) = false)
  /\ (is_simulation_currently_running self = false -> stopped = (false, self)).
Proof.
  unfold start_continuous_vital_signs_simulation,
    stop_continuous_vital_signs_simulation, is_simulation_currently_running.
  destruct (_is_continuous_simulation_running self) eqn:Hrun; cbn;
    rewrite ?Hrun; repeat split; intros; try done.
Qed.

End EngineProperties.

(** A new engine is idle: the first [start] returns true and leaves it
    running, the second returns false, and [stop] on the new engine
    returns false. *)
Lemma start_stop_state_machine_witness :
  let self := @new_engine unit in
  let started := start_continuous_vital_signs_simulation self in
  is_simulation_currently_running self = false
  /\ fst started = true
  /\ is_simulation_currently_running (snd started) = true
  /\ fst (start_continuous_vital_signs_simulation (snd started)) = false
  /\ stop_continuous_vital_signs_simulation self = (false, self).
Proof.
  intros self started.
  assert (is_simulation_currently_running self = false) as Hidle by reflexivity.
  pose proof (start_stop_state_machine self)
    as (Hstart & Htwice & _ & _ & _ & Hstop).
  split; [exact Hidle |].
  split; [exact (proj2 Hstart Hidle) |].
  split; [exact (proj1 (Htwice Hidle)) |].
  split; [exact (proj2 (Htwice Hidle)) |].
  exact (Hstop Hidle).
Defined.


(** With the second of three callbacks raising, all three are called with
    the reading, one line is printed, and the engine still has its three
    callbacks and the reading as the most recent one. *)
Example failing_callback_is_isolated :
  let self :=
    fold_left add_data_broadcasting_callback counting_callbacks new_engine in
  let env := mkEnv even_draws sample_clock 0%nat [] [] in
  let out := generate_single_vital_signs_reading self env in
  map fst (calls (snd out)) = [1; 2; 3]%nat
  /\ sink_state (snd out) = 2%nat
  /\ stdout (snd out) = ["Error in data broadcasting callback: sink down"]
  /\ map callback_id (_data_broadcasting_callbacks (snd (fst out)))
     = [1; 2; 3]%nat
  /\ _most_recent_vital_signs (snd (fst out)) = Some (fst (fst out)).
Proof. repeat split. Qed.

(** [int] keeps the sign and the integer part. *)
Lemma py_int_truncation (x : Q) : truncation_of x (py_int x).
Proof.
  destruct x as [n d]. unfold truncation_of, py_int, Qabs, Qle, Qlt.
  cbn [Qnum Qden inject_Z Qminus Qplus Qopp].
  pose proof (Z.quot_rem' n (Z.pos d)) as Hqr.
  destruct (Z.le_ge_cases 0 n) as [Hn | Hn].
  - pose proof (Z.rem_bound_pos n (Z.pos d) Hn ltac:(lia)) as Hb.
    pose proof (Z.quot_pos n (Z.pos d) Hn ltac:(lia)) as Hq.
    split; [nia |].
    rewrite Pos2Z.inj_mul.
    replace (n * 1 + - n `quot` Z.pos d * Z.pos d)%Z
      with (n `rem` Z.pos d)%Z by lia.
    lia.
  - pose proof (Z.rem_bound_pos_neg n (Z.pos d) ltac:(lia) Hn) as Hb.
    assert (n `quot` Z.pos d <= 0)%Z as Hq.
    { rewrite <- (Z.opp_involutive n), Z.quot_opp_l by lia.
      pose proof (Z.quot_pos (- n) (Z.pos d) ltac:(lia) ltac:(lia)). lia. }
    split; [nia |].
    rewrite Pos2Z.inj_mul.
    replace (n * 1 + - n `quot` Z.pos d * Z.pos d)%Z
      with (n `rem` Z.pos d)%Z by lia.
    lia.
Qed.

(** C9: the heart rate, systolic, diastolic, oxygen saturation and
    respiratory rate of a reading are the [int] of the values the generator
    returned for them, drawn in that order with the temperature before the
    respiratory rate, each the one-decimal sample without its fractional
    part; the body temperature is the generator's value itself. *)
Theorem reading_fields_truncate_samples {SinkState : Type}
    (self : PatientVitalsSimulationEngine SinkState) (env : Env SinkState) :
  let g := _vital_signs_generator self in
  let mode := _current_simulation_mode self in
  let s1 := generate_vital_sign_value g HEART_RATE mode (rng env) in
  let s2 := generate_vital_sign_value g BLOOD_PRESSURE_SYSTOLIC mode (snd s1) in
  let s3 := generate_vital_sign_value g BLOOD_PRESSURE_DIASTOLIC mode (snd s2) in
  let s4 := generate_vital_sign_value g OXYGEN_SATURATION mode (snd s3) in
  let s5 := generate_vital_sign_value g BODY_TEMPERATURE mode (snd s4) in
  let s6 := generate_vital_sign_value g RESPIRATORY_RATE mode (snd s5) in
  let reading := fst (fst (generate_single_vital_signs_reading self env)) in
  (heart_rate_bpm reading = py_int (fst s1)
   /\ blood_pressure_systolic_mmhg reading = py_int (fst s2)
   /\ blood_pressure_diastolic_mmhg reading = py_int (fst s3)
   /\ oxygen_saturation_percentage reading = py_int (fst s4)
   /\ respiratory_rate_per_minute reading = py_int (fst s6)
   /\ body_temperature_celsius reading = fst s5)
  /\ (one_decimal (fst s1) /\ one_decimal (fst s2) /\ one_decimal (fst s3)
      /\ one_decimal (fst s4) /\ one_decimal (fst s5) /\ one_decimal (fst s6))
  /\ (truncation_of (fst s1) (heart_rate_bpm reading)
      /\ truncation_of (fst s2) (blood_pressure_systolic_mmhg reading)
      /\ truncation_of (fst s3) (blood_pressure_diastolic_mmhg reading)
      /\ truncation_of (fst s4) (oxygen_saturation_percentage reading)
      /\ truncation_of (fst s6) (respiratory_rate_per_minute reading)).
Proof.
  intros g mode s1 s2 s3 s4 s5 s6 reading.
  assert (heart_rate_bpm reading = py_int (fst s1)
          /\ blood_pressure_systolic_mmhg reading = py_int (fst s2)
          /\ blood_pressure_diastolic_mmhg reading = py_int (fst s3)
          /\ oxygen_saturation_percentage reading = py_int (fst s4)
          /\ respiratory_rate_per_minute reading = py_int (fst s6)
          /\ body_temperature_celsius reading = fst s5)
    as (H1 & H2 & H3 & H4 & H6 & H5).
  { subst reading. unfold generate_single_vital_signs_reading, sample_all, rbind.
    fold g mode. fold s1.
    destruct s1 as [v1 r1] eqn:E1. cbn [snd] in s2. fold s2.
    destruct s2 as [v2 r2] eqn:E2. cbn [snd] in s3. fold s3.
    destruct s3 as [v3 r3] eqn:E3. cbn [snd] in s4. fold s4.
    destruct s4 as [v4 r4] eqn:E4. cbn [snd] in s5. fold s5.
    destruct s5 as [v5 r5] eqn:E5. cbn [snd] in s6. fold s6.
    destruct s6 as [v6 r6] eqn:E6.
    cbn. repeat split. }
  split; [by repeat split |].
  split.
  - repeat split; apply generate_vital_sign_value_one_decimal.
  - rewrite H1, H2, H3, H4, H6. repeat split; apply py_int_truncation.
Qed.

(** * Further properties *)

(** ** Overrides *)

(** X1: removing an override answers true exactly when one was set; from
    then on the vital type resolves to the static table of the mode, the
    other vital types resolve as before, and a second removal answers
    false. *)
Theorem remove_custom_vital_range_reverts
    (g : VitalSignsValueGenerator) (vital_type : VitalSignType) :
  let removed := remove_custom_vital_range g vital_type in
  (fst removed = true <-> is_Some (_custom_vital_ranges g !! vital_type))
  /\ (forall mode,
        get_vital_range_for_mode (snd removed) vital_type mode
        = _predefined_vital_ranges mode vital_type)
  /\ (forall other mode,
        other <> vital_type ->
        get_vital_range_for_mode (snd removed) other mode
        = get_vital_range_for_mode g other mode)
  /\ fst (remove_custom_vital_range (snd removed) vital_type) = false.
Proof.
  unfold remove_custom_vital_range, get_vital_range_for_mode. cbn.
  split; [apply bool_decide_eq_true |].
  split; [intros mode; by rewrite lookup_delete_eq |].
  split.
  - intros other mode Hne. by rewrite lookup_delete_ne.
  - apply bool_decide_eq_false. rewrite lookup_delete_eq. by intros [? ?].
Qed.

(** Removing the heart-rate override leaves the SpO2 one in force. *)
Lemma remove_custom_vital_range_reverts_witness :
  let g := mkGenerator {[ HEART_RATE := (50, 90); OXYGEN_SATURATION := (90, 99) ]} in
  let removed := remove_custom_vital_range g HEART_RATE in
  OXYGEN_SATURATION <> HEART_RATE
  /\ get_vital_range_for_mode (snd removed) OXYGEN_SATURATION
       EMERGENCY_CRITICAL_PATIENT
     = get_vital_range_for_mode g OXYGEN_SATURATION EMERGENCY_CRITICAL_PATIENT
  /\ get_vital_range_for_mode (snd removed) HEART_RATE
       EMERGENCY_CRITICAL_PATIENT = (30, 220).
Proof.
  intros g removed.
  assert (OXYGEN_SATURATION <> HEART_RATE) as Hne by discriminate.
  split; [exact Hne |].
  pose proof (remove_custom_vital_range_reverts g HEART_RATE)
    as (_ & Hstatic & Hother & _).
  split.
  - exact (Hother OXYGEN_SATURATION EMERGENCY_CRITICAL_PATIENT Hne).
  - exact (Hstatic EMERGENCY_CRITICAL_PATIENT).
Defined.

(** X2: setting an override on a vital type that has none and removing it
    again gives back the generator as it was, and the removal answers
    true. *)
Theorem set_then_remove_custom_vital_range
    (g : VitalSignsValueGenerator) (vital_type : VitalSignType)
    (minimum_value maximum_value : Q) :
  _custom_vital_ranges g !! vital_type = None ->
  minimum_value < maximum_value ->
  remove_custom_vital_range
    (snd (set_custom_vital_range g vital_type minimum_value maximum_value))
    vital_type
  = (true, g).
Proof.
  intros Hnone Hlt. unfold set_custom_vital_range.
  apply Qltb_lt in Hlt. unfold Qltb in Hlt. apply negb_true_iff in Hlt.
  rewrite Hlt. unfold remove_custom_vital_range. cbn.
  rewrite lookup_insert_eq, delete_insert_eq, delete_id by done.
  destruct g as [custom]. cbn. f_equal.
Qed.

Lemma set_then_remove_custom_vital_range_witness :
  _custom_vital_ranges new_generator !! BODY_TEMPERATURE = None
  /\ 35.5 < 38.5
  /\ remove_custom_vital_range
       (snd (set_custom_vital_range new_generator BODY_TEMPERATURE 35.5 38.5))
       BODY_TEMPERATURE
     = (true, new_generator).
Proof.
  assert (_custom_vital_ranges new_generator !! BODY_TEMPERATURE = None)
    as Hnone by reflexivity.
  assert (35.5 < 38.5) as Hlt by reflexivity.
  split; [exact Hnone |]. split; [exact Hlt |].
  exact (set_then_remove_custom_vital_range new_generator BODY_TEMPERATURE
           35.5 38.5 Hnone Hlt).
Defined.

(** ** Where the samples fall *)

Lemma round1_comp (a b : Q) : a == b -> round1 a = round1 b.
Proof.
  intros Hab. unfold round1, round_half_even.
  assert (a * 10 == b * 10) as Hab10 by (rewrite Hab; reflexivity).
  rewrite (Qfloor_comp _ _ Hab10).
  assert (a * 10 - inject_Z (Qfloor (b * 10))
          == b * 10 - inject_Z (Qfloor (b * 10))) as Hfrac
    by (rewrite Hab; reflexivity).
  by rewrite (Qcompare_comp _ _ Hfrac _ _ (Qeq_refl 0.5)).
Qed.



(** A rounded sample of an interval is within 0.05 of the interval. *)
Lemma rounded_uniform_near (a b : Q) (r : RandomSource) :
  a <= b -> unit_draws r ->
  a - 0.05 <= round1 (fst (uniform a b r))
  /\ round1 (fst (uniform a b r)) <= b + 0.05.
Proof.
  intros Hab Hr. destruct (uniform_within a b r Hab Hr) as [Hlo Hhi].
  destruct (round1_near (fst (uniform a b r))) as [Hn0 Hn1].
  cbn [fst snd] in Hlo, Hhi. split; lra.
Qed.

(** X4: for an active range with bounds of magnitude at most a million,
    where the floats of the code follow the arithmetic of the model to far
    less than a hundredth: when abnormal or emergency mode takes its extreme
    branch (first draw below 0.3, respectively 0.75), the second draw picks
    the side: below 0.5 the value comes from the lowest quarter (emergency:
    lowest 30%) of the active range, otherwise from the highest, in both
    cases up to 0.06 (0.05 for the rounding to one decimal and a margin for
    the error of the floats). *)
Theorem extreme_value_location
    (g : VitalSignsValueGenerator) (vital_type : VitalSignType)
    (mode : PatientSimulationMode) (r : RandomSource) :
  overrides_ordered g -> unit_draws r ->
  mode <> NORMAL_HEALTHY_PATIENT ->
  Qltb (tape r (drawn r)) (extreme_chance mode) = true ->
  magnitude_within float_close_limit
    (get_vital_range_for_mode g vital_type mode) ->
  let active := get_vital_range_for_mode g vital_type mode in
  let reach := (snd active - fst active) * extreme_share mode in
  let value := fst (generate_vital_sign_value g vital_type mode r) in
  if Qltb (tape r (S (drawn r))) 0.5
  then fst active - 0.06 <= value /\ value <= fst active + reach + 0.06
  else snd active - reach - 0.06 <= value /\ value <= snd active + 0.06.
Proof.
  intros Hg Hr Hmode Hchance _ active reach value.
  pose proof (active_range_ordered g vital_type mode Hg) as Hord.
  fold active in Hord.
  assert (unit_draws (mkRandomSource (tape r) (S (S (drawn r))))) as Hr2
    by by apply unit_draws_advance.
  subst value. unfold generate_vital_sign_value. fold active.
  destruct active as [min_val max_val]. cbn [fst snd] in *.
  destruct mode; [done | |]; cbn [extreme_chance extreme_share] in *.
  - rewrite abnormal_value_eq, Hchance.
    destruct (Qltb (tape r (S (drawn r))) 0.5).
    + destruct (rounded_uniform_near min_val
                  (min_val + (max_val - min_val) * 0.25) _ ltac:(nra) Hr2).
      subst reach. split; lra.
    + destruct (rounded_uniform_near
                  (max_val - (max_val - min_val) * 0.25) max_val _
                  ltac:(nra) Hr2).
      subst reach. split; lra.
  - rewrite emergency_value_eq, Hchance.
    destruct (Qltb (tape r (S (drawn r))) 0.5).
    + destruct (rounded_uniform_near min_val
                  (min_val + (max_val - min_val) * 0.3) _ ltac:(nra) Hr2).
      subst reach. split; lra.
    + destruct (rounded_uniform_near
                  (max_val - (max_val - min_val) * 0.3) max_val _
                  ltac:(nra) Hr2).
      subst reach. split; lra.
Qed.

(** With every draw 0.5, emergency mode takes the extreme branch and the
    high side: the heart rate is 163 - 0.06 at least. *)
Lemma extreme_value_location_witness :
  let value :=
    fst (generate_vital_sign_value new_generator HEART_RATE
           EMERGENCY_CRITICAL_PATIENT even_draws) in
  overrides_ordered new_generator /\ unit_draws even_draws
  /\ EMERGENCY_CRITICAL_PATIENT <> NORMAL_HEALTHY_PATIENT
  /\ Qltb (tape even_draws (drawn even_draws))
       (extreme_chance EMERGENCY_CRITICAL_PATIENT) = true
  /\ magnitude_within float_close_limit
       (get_vital_range_for_mode new_generator HEART_RATE
          EMERGENCY_CRITICAL_PATIENT)
  /\ 220 - (220 - 30) * 0.3 - 0.06 <= value
  /\ value <= 220 + 0.06.
Proof.
  intros value.
  assert (overrides_ordered new_generator) as Hg by apply new_generator_ordered.
  assert (unit_draws even_draws) as Hr by (intros n; simpl; lra).
  assert (EMERGENCY_CRITICAL_PATIENT <> NORMAL_HEALTHY_PATIENT) as Hmode
    by discriminate.
  assert (Qltb (tape even_draws (drawn even_draws))
            (extreme_chance EMERGENCY_CRITICAL_PATIENT) = true) as Hchance
    by reflexivity.
  assert (magnitude_within float_close_limit
            (get_vital_range_for_mode new_generator HEART_RATE
               EMERGENCY_CRITICAL_PATIENT)) as Hsize
    by apply (predefined_ranges_magnitude EMERGENCY_CRITICAL_PATIENT).
  split; [exact Hg |]. split; [exact Hr |]. split; [exact Hmode |].
  split; [exact Hchance |]. split; [exact Hsize |].
  exact (extreme_value_location new_generator HEART_RATE
           EMERGENCY_CRITICAL_PATIENT even_draws Hg Hr Hmode Hchance Hsize).
Defined.

(** ** Engine configuration *)

(** X5: an interval below one second is refused with a [ValueError] that
    names the minimum and the engine stays as it was; any other interval
    is stored and nothing else of the engine changes. *)
Theorem set_data_generation_interval_validates {SinkState : Type}
    (self : PatientVitalsSimulationEngine SinkState) (interval_seconds : Z) :
  ((interval_seconds < 1)%Z ->
   set_data_generation_interval self interval_seconds
   = (Raised (ValueError "Interval must be at least 1 seconds"), self))
  /\
  ((1 <= interval_seconds)%Z ->
   exists self',
     set_data_generation_interval self interval_seconds = (Returned tt, self')
     /\ _data_generation_interval_seconds self' = interval_seconds
     /\ _current_simulation_mode self' = _current_simulation_mode self
     /\ _target_patient_identifier self' = _target_patient_identifier self
     /\ _monitoring_device_identifier self' = _monitoring_device_identifier self
     /\ _is_continuous_simulation_running self'
        = _is_continuous_simulation_running self
     /\ _vital_signs_generator self' = _vital_signs_generator self
     /\ _most_recent_vital_signs self' = _most_recent_vital_signs self
     /\ _data_broadcasting_callbacks self' = _data_broadcasting_callbacks self).
Proof.
  unfold set_data_generation_interval, MINIMUM_SIMULATION_INTERVAL_SECONDS.
  split; intros Hz.
  - apply Z.ltb_lt in Hz. by rewrite Hz.
  - apply Z.ltb_ge in Hz. rewrite Hz. eexists. by repeat split.
Qed.

(** Zero is refused on a new engine, which keeps its ten seconds; five is
    accepted. *)
Lemma set_data_generation_interval_validates_witness :
  let self := @new_engine unit in
  ((0 < 1)%Z
   /\ set_data_generation_interval self 0
      = (Raised (ValueError "Interval must be at least 1 seconds"), self))
  /\
  ((1 <= 5)%Z
   /\ exists self',
        set_data_generation_interval self 5 = (Returned tt, self')
        /\ _data_generation_interval_seconds self' = 5%Z).
Proof.
  intros self.
  assert (0 < 1)%Z as H0 by lia.
  assert (1 <= 5)%Z as H5 by lia.
  split; (split; [assumption |]).
  - exact (proj1 (set_data_generation_interval_validates self 0) H0).
  - destruct (proj2 (set_data_generation_interval_validates self 5) H5)
      as (self' & Hset & Hinterval & _).
    exists self'. split; [exact Hset | exact Hinterval].
Defined.

(** What a generation cycle computes, step by step. *)
Lemma generate_single_unfold {SinkState : Type}
    (self : PatientVitalsSimulationEngine SinkState) (env : Env SinkState) :
  let sampled :=
    sample_all (_vital_signs_generator self) (_current_simulation_mode self)
      (rng env) in
  let '(heart_rate, bp_systolic, bp_diastolic, oxygen_saturation,
        body_temperature, respiratory_rate) := fst sampled in
  let reading :=
    mkPatientVitalSigns
      (readings (env_clock env) (reads (env_clock env)) +:+ "Z")
      (py_int heart_rate) (py_int bp_systolic) (py_int bp_diastolic)
      (py_int oxygen_saturation) body_temperature (py_int respiratory_rate)
      (mode_value (_current_simulation_mode self))
      (_monitoring_device_identifier self) (_target_patient_identifier self)
      None None in
  generate_single_vital_signs_reading self env
  = (reading,
     mkEngine (_current_simulation_mode self)
       (_data_generation_interval_seconds self)
       (_target_patient_identifier self) (_monitoring_device_identifier self)
       (_is_continuous_simulation_running self) (_simulation_thread self)
       (_vital_signs_generator self) (Some reading)
       (_data_broadcasting_callbacks self),
     _notify_data_broadcasting_callbacks (_data_broadcasting_callbacks self)
       reading
       (mkEnv (snd sampled)
          (mkClock (readings (env_clock env)) (S (reads (env_clock env))))
          (sink_state env) (stdout env) (calls env))).
Proof.
  intros sampled. subst sampled. unfold generate_single_vital_signs_reading.
  destruct (sample_all _ _ _) as [[[[[[hr sys] dia] spo2] temp] rr] r].
  reflexivity.
Qed.

(** An engine after a cycle differs from the one before in its most
    recent reading only. *)
Lemma generate_single_keeps_configuration {SinkState : Type}
    (self : PatientVitalsSimulationEngine SinkState) (env : Env SinkState) :
  let self' := snd (fst (generate_single_vital_signs_reading self env)) in
  _current_simulation_mode self' = _current_simulation_mode self
  /\ _data_generation_interval_seconds self'
     = _data_generation_interval_seconds self
  /\ _target_patient_identifier self' = _target_patient_identifier self
  /\ _monitoring_device_identifier self' = _monitoring_device_identifier self
  /\ _is_continuous_simulation_running self'
     = _is_continuous_simulation_running self
  /\ _simulation_thread self' = _simulation_thread self
  /\ _vital_signs_generator self' = _vital_signs_generator self
  /\ _data_broadcasting_callbacks self' = _data_broadcasting_callbacks self.
Proof.
  pose proof (generate_single_unfold self env) as H. cbv zeta in H.
  destruct (fst (sample_all _ _ _)) as [[[[[hr sys] dia] spo2] temp] rr].
  cbv zeta. rewrite H. by repeat split.
Qed.

(** X6: whatever calls are made on a new engine, in whatever order,
    refused ones included, with arguments that are numbers (an integer
    interval, range bounds that are finite floats: a NaN, which the
    comparisons of the code let through, is no argument here), the interval
    stays at one second or more and every stored override keeps
    min < max. *)
Theorem engine_invariants_kept {SinkState : Type}
    (calls : list (EngineCall SinkState)) (env : Env SinkState) :
  let self := fst (run_calls (new_engine, env) calls) in
  (1 <= _data_generation_interval_seconds self)%Z
  /\ overrides_ordered (_vital_signs_generator self).
Proof.
  cbv zeta. unfold run_calls.
  assert (forall (st : PatientVitalsSimulationEngine SinkState * Env SinkState),
            (1 <= _data_generation_interval_seconds (fst st))%Z
            /\ overrides_ordered (_vital_signs_generator (fst st)) ->
            (1 <= _data_generation_interval_seconds
                    (fst (fold_left run_call calls st)))%Z
            /\ overrides_ordered
                 (_vital_signs_generator (fst (fold_left run_call calls st))))
    as Hrun.
  { induction calls as [| call calls IH]; intros st Hst; [done |].
    cbn [fold_left]. apply IH. clear IH.
    destruct st as [self env0]. destruct Hst as [Hint Hord].
    cbn [fst] in *.
    destruct call; cbn [run_call fst snd]; try (split; assumption).
    - (* interval *)
      unfold set_data_generation_interval, MINIMUM_SIMULATION_INTERVAL_SECONDS.
      destruct (Z.ltb_spec interval_seconds 1); by split.
    - (* custom range *)
      unfold set_custom_vital_sign_range.
      pose proof (set_custom_vital_range_ordered (_vital_signs_generator self)
                    vital_type minimum_value maximum_value Hord) as Hset.
      destruct (set_custom_vital_range _ _ _ _) as [outcome g]. by split.
    - (* remove range *)
      unfold remove_custom_vital_sign_range, remove_custom_vital_range.
      cbn [fst snd _data_generation_interval_seconds _vital_signs_generator].
      split; [done |].
      intros v lo hi Hlk. cbn [_custom_vital_ranges] in Hlk.
      destruct (decide (vital_type = v)) as [-> | Hne].
      + by rewrite lookup_delete_eq in Hlk.
      + rewrite lookup_delete_ne in Hlk by done. by apply (Hord v).
    - (* remove callback *)
      unfold remove_data_broadcasting_callback.
      destruct (list_remove _ _); by split.
    - (* start *)
      unfold start_continuous_vital_signs_simulation.
      destruct (_is_continuous_simulation_running self); by split.
    - (* stop *)
      unfold stop_continuous_vital_signs_simulation.
      destruct (_is_continuous_simulation_running self); by split.
    - (* generate *)
      pose proof (generate_single_keeps_configuration self env0)
        as (_ & Hi & _ & _ & _ & _ & Hgen & _).
      destruct (generate_single_vital_signs_reading self env0)
        as [[reading self'] env']. cbn [fst snd] in *.
      rewrite Hi, Hgen. by split. }
  apply Hrun. cbn [fst new_engine _data_generation_interval_seconds
                     _vital_signs_generator].
  split; [unfold DEFAULT_SIMULATION_INTERVAL_SECONDS; lia
         | apply new_generator_ordered].
Qed.

(** ** One generation cycle *)

(** One value costs one draw in normal mode and two or three otherwise;
    the tape itself is only read. *)
Lemma generate_vital_sign_value_draws g vital_type mode r :
  exists k : nat,
    (1 <= k <= 3)%nat
    /\ (mode = NORMAL_HEALTHY_PATIENT -> k = 1%nat)
    /\ snd (generate_vital_sign_value g vital_type mode r)
       = mkRandomSource (tape r) (drawn r + k).
Proof.
  unfold generate_vital_sign_value.
  destruct (get_vital_range_for_mode _ _ _) as [min_val max_val].
  destruct mode.
  - exists 1%nat. split; [lia |]. split; [done |].
    rewrite Nat.add_1_r. reflexivity.
  - unfold _generate_abnormal_patient_value, rbind, random.
    destruct (Qltb (tape r (drawn r)) 0.3).
    + cbn [tape drawn]. exists 3%nat. split; [lia |]. split; [discriminate |].
      replace (drawn r + 3)%nat with (S (S (S (drawn r)))) by lia.
      destruct (Qltb (tape r (S (drawn r))) 0.5); reflexivity.
    + exists 2%nat. split; [lia |]. split; [discriminate |].
      replace (drawn r + 2)%nat with (S (S (drawn r))) by lia.
      reflexivity.
  - unfold _generate_emergency_patient_value, rbind, random.
    destruct (Qltb (tape r (drawn r)) 0.75).
    + cbn [tape drawn]. exists 3%nat. split; [lia |]. split; [discriminate |].
      replace (drawn r + 3)%nat with (S (S (S (drawn r)))) by lia.
      destruct (Qltb (tape r (S (drawn r))) 0.5); reflexivity.
    + exists 2%nat. split; [lia |]. split; [discriminate |].
      replace (drawn r + 2)%nat with (S (S (drawn r))) by lia.
      reflexivity.
Qed.

(** The six samples of a reading, one generator call after the other. *)
Lemma sample_all_chain g mode r :
  let s1 := generate_vital_sign_value g HEART_RATE mode r in
  let s2 := generate_vital_sign_value g BLOOD_PRESSURE_SYSTOLIC mode (snd s1) in
  let s3 := generate_vital_sign_value g BLOOD_PRESSURE_DIASTOLIC mode (snd s2) in
  let s4 := generate_vital_sign_value g OXYGEN_SATURATION mode (snd s3) in
  let s5 := generate_vital_sign_value g BODY_TEMPERATURE mode (snd s4) in
  let s6 := generate_vital_sign_value g RESPIRATORY_RATE mode (snd s5) in
  sample_all g mode r
  = (fst s1, fst s2, fst s3, fst s4, fst s5, fst s6, snd s6).
Proof.
  intros s1 s2 s3 s4 s5 s6. unfold sample_all, rbind. fold s1.
  destruct s1 as [v1 r1] eqn:E1. cbn [snd] in s2. fold s2.
  destruct s2 as [v2 r2] eqn:E2. cbn [snd] in s3. fold s3.
  destruct s3 as [v3 r3] eqn:E3. cbn [snd] in s4. fold s4.
  destruct s4 as [v4 r4] eqn:E4. cbn [snd] in s5. fold s5.
  destruct s5 as [v5 r5] eqn:E5. cbn [snd] in s6. fold s6.
  destruct s6 as [v6 r6] eqn:E6. reflexivity.
Qed.

Lemma sample_all_draws g mode r :
  exists k : nat,
    (6 <= k <= 18)%nat
    /\ (mode = NORMAL_HEALTHY_PATIENT -> k = 6%nat)
    /\ snd (sample_all g mode r) = mkRandomSource (tape r) (drawn r + k).
Proof.
  pose proof (sample_all_chain g mode r) as Hchain. cbv zeta in Hchain.
  rewrite Hchain. cbn [snd].
  destruct (generate_vital_sign_value_draws g HEART_RATE mode r)
    as (k1 & Hk1 & Hn1 & ->).
  destruct (generate_vital_sign_value_draws g BLOOD_PRESSURE_SYSTOLIC mode
              (mkRandomSource (tape r) (drawn r + k1)))
    as (k2 & Hk2 & Hn2 & ->). cbn [tape drawn].
  destruct (generate_vital_sign_value_draws g BLOOD_PRESSURE_DIASTOLIC mode
              (mkRandomSource (tape r) (drawn r + k1 + k2)))
    as (k3 & Hk3 & Hn3 & ->). cbn [tape drawn].
  destruct (generate_vital_sign_value_draws g OXYGEN_SATURATION mode
              (mkRandomSource (tape r) (drawn r + k1 + k2 + k3)))
    as (k4 & Hk4 & Hn4 & ->). cbn [tape drawn].
  destruct (generate_vital_sign_value_draws g BODY_TEMPERATURE mode
              (mkRandomSource (tape r) (drawn r + k1 + k2 + k3 + k4)))
    as (k5 & Hk5 & Hn5 & ->). cbn [tape drawn].
  destruct (generate_vital_sign_value_draws g RESPIRATORY_RATE mode
              (mkRandomSource (tape r) (drawn r + k1 + k2 + k3 + k4 + k5)))
    as (k6 & Hk6 & Hn6 & ->). cbn [tape drawn].
  exists (k1 + k2 + k3 + k4 + k5 + k6)%nat.
  split; [lia |]. split.
  - intros Hmode. rewrite (Hn1 Hmode), (Hn2 Hmode), (Hn3 Hmode),
      (Hn4 Hmode), (Hn5 Hmode), (Hn6 Hmode). reflexivity.
  - f_equal. lia.
Qed.

(** X7: a generation cycle changes nothing of the engine but its most
    recent reading.  Outside the engine it reads the clock once and reads
    between 6 and 18 draws from the random tape (6 in normal mode), and
    leaves the content of the tape and of the clock as they were. *)
Theorem generate_single_footprint {SinkState : Type}
    (self : PatientVitalsSimulationEngine SinkState) (env : Env SinkState) :
  let out := generate_single_vital_signs_reading self env in
  let self' := snd (fst out) in
  let env' := snd out in
  (_current_simulation_mode self' = _current_simulation_mode self
   /\ _data_generation_interval_seconds self'
      = _data_generation_interval_seconds self
   /\ _target_patient_identifier self' = _target_patient_identifier self
   /\ _monitoring_device_identifier self' = _monitoring_device_identifier self
   /\ _is_continuous_simulation_running self'
      = _is_continuous_simulation_running self
   /\ _simulation_thread self' = _simulation_thread self
   /\ _vital_signs_generator self' = _vital_signs_generator self
   /\ _data_broadcasting_callbacks self' = _data_broadcasting_callbacks self)
  /\ env_clock env'
     = mkClock (readings (env_clock env)) (S (reads (env_clock env)))
  /\ tape (rng env') = tape (rng env)
  /\ exists k : nat,
       drawn (rng env') = (drawn (rng env) + k)%nat
       /\ (6 <= k <= 18)%nat
       /\ (_current_simulation_mode self = NORMAL_HEALTHY_PATIENT -> k = 6%nat).
Proof.
  intros out self' env'.
  split; [apply generate_single_keeps_configuration |].
  subst env' out.
  pose proof (generate_single_unfold self env) as H. cbv zeta in H.
  destruct (sample_all_draws (_vital_signs_generator self)
              (_current_simulation_mode self) (rng env))
    as (k & Hk & Hnormal & Hrng).
  destruct (fst (sample_all _ _ _)) as [[[[[hr sys] dia] spo2] temp] rr].
  rewrite H. cbn [snd].
  match goal with
  | |- context [_notify_data_broadcasting_callbacks ?cbs ?v ?e] =>
      destruct (notify_calls_every_callback cbs v e) as (_ & -> & ->)
  end.
  cbn [rng env_clock]. rewrite Hrng. cbn [tape drawn].
  split; [done |]. split; [done |]. by exists k.
Qed.

(** X8: a reading carries the mode, device and patient the engine was last
    given, the clock reading of the cycle followed by "Z" as its time
    stamp, and no quality score and no signal strength. *)
Theorem reading_carries_current_settings {SinkState : Type}
    (self : PatientVitalsSimulationEngine SinkState) (env : Env SinkState)
    (new_mode : PatientSimulationMode) (device_id patient_id : string) :
  let configured :=
    set_patient_identifier
      (set_device_identifier (set_simulation_mode self new_mode) device_id)
      patient_id in
  let reading := fst (fst (generate_single_vital_signs_reading configured env)) in
  simulation_mode_used reading = mode_value new_mode
  /\ monitoring_device_identifier reading = device_id
  /\ patient_identifier reading = patient_id
  /\ timestamp_iso_format reading
     = readings (env_clock env) (reads (env_clock env)) +:+ "Z"
  /\ data_quality_score reading = None
  /\ signal_strength_indicator reading = None.
Proof.
  intros configured reading. subst reading.
  pose proof (generate_single_unfold configured env) as H. cbv zeta in H.
  destruct (fst (sample_all _ _ _)) as [[[[[hr sys] dia] spo2] temp] rr].
  rewrite H. by repeat split.
Qed.

(** A new engine in normal mode reads exactly six draws. *)
Lemma generate_single_footprint_witness :
  let env := mkEnv even_draws sample_clock tt [] [] in
  let env' := snd (generate_single_vital_signs_reading (@new_engine unit) env) in
  _current_simulation_mode (@new_engine unit) = NORMAL_HEALTHY_PATIENT
  /\ drawn (rng env') = (drawn (rng env) + 6)%nat.
Proof.
  intros env env'.
  assert (_current_simulation_mode (@new_engine unit) = NORMAL_HEALTHY_PATIENT)
    as Hmode by reflexivity.
  split; [exact Hmode |].
  destruct (proj2 (proj2 (proj2 (generate_single_footprint new_engine env))))
    as (k & Hdrawn & _ & Hnormal).
  rewrite (Hnormal Hmode) in Hdrawn. exact Hdrawn.
Defined.

(** ** Readings and urgency *)

(** In normal mode the value is inside the active range when the bounds
    of the range have one decimal. *)
Lemma normal_value_within g vital_type r :
  overrides_ordered g -> unit_draws r ->
  one_decimal_bounds (get_vital_range_for_mode g vital_type NORMAL_HEALTHY_PATIENT) ->
  within (get_vital_range_for_mode g vital_type NORMAL_HEALTHY_PATIENT)
    (fst (generate_vital_sign_value g vital_type NORMAL_HEALTHY_PATIENT r)).
Proof.
  intros Hg Hr [Hlo Hhi].
  pose proof (active_range_ordered g vital_type NORMAL_HEALTHY_PATIENT Hg)
    as Hord. apply Qlt_le_weak in Hord.
  unfold generate_vital_sign_value.
  destruct (get_vital_range_for_mode _ _ _) as [min_val max_val].
  rewrite normal_value_eq. apply round1_within; [done | done |].
  by apply normal_sample_within.
Qed.

(** [int] of a value between two integers, the lower one not negative,
    lies between them. *)
Lemma py_int_between (a b : Z) (x : Q) :
  (0 <= a)%Z -> inject_Z a <= x -> x <= inject_Z b ->
  (a <= py_int x <= b)%Z.
Proof.
  intros Ha Hlo Hhi.
  assert (0 <= x) as Hx.
  { apply Qle_trans with (inject_Z a); [| done].
    change 0 with (inject_Z 0). by rewrite <- Zle_Qle. }
  destruct (proj1 (py_int_truncates x) Hx) as [Ht0 Ht1].
  split.
  - assert (inject_Z a < inject_Z (py_int x + 1)) as Hlt
      by (rewrite inject_Z_plus; change (inject_Z 1) with 1; lra).
    rewrite <- Zlt_Qlt in Hlt. lia.
  - rewrite Zle_Qle. lra.
Qed.

Lemma emergency_mode_is_urgent (vital_signs : PatientVitalSigns) :
  simulation_mode_used vital_signs = "emergency" ->
  _determine_urgency_level vital_signs = true.
Proof.
  intros Hmode. unfold _determine_urgency_level. cbv zeta.
  rewrite Hmode, !if_true_else. cbn [String.eqb].
  rewrite ?orb_true_r. reflexivity.
Qed.

(** X9: in normal mode, with no override set, every field of a reading
    lies in its normal range: heart rate 60..100, systolic 90..140,
    diastolic 60..90, SpO2 95..100, respiratory rate 12..20, temperature
    36.1..37.2.  Such a reading never requires immediate processing. *)
Theorem normal_reading_in_normal_ranges {SinkState : Type}
    (self : PatientVitalsSimulationEngine SinkState) (env : Env SinkState) :
  _current_simulation_mode self = NORMAL_HEALTHY_PATIENT ->
  _custom_vital_ranges (_vital_signs_generator self) = ∅ ->
  unit_draws (rng env) ->
  let reading := fst (fst (generate_single_vital_signs_reading self env)) in
  (60 <= heart_rate_bpm reading <= 100)%Z
  /\ (90 <= blood_pressure_systolic_mmhg reading <= 140)%Z
  /\ (60 <= blood_pressure_diastolic_mmhg reading <= 90)%Z
  /\ (95 <= oxygen_saturation_percentage reading <= 100)%Z
  /\ (12 <= respiratory_rate_per_minute reading <= 20)%Z
  /\ 36.1 <= body_temperature_celsius reading
  /\ body_temperature_celsius reading <= 37.2
  /\ _determine_urgency_level reading = false.
Proof.
  intros Hmode Hempty Hr reading.
  set (g := _vital_signs_generator self) in *.
  assert (overrides_ordered g) as Hg.
  { intros v lo hi Hlk. rewrite Hempty in Hlk. by rewrite lookup_empty in Hlk. }
  assert (forall vital_type r,
            unit_draws r ->
            within (NORMAL_VITAL_RANGES vital_type)
              (fst (generate_vital_sign_value g vital_type
                      NORMAL_HEALTHY_PATIENT r))
            /\ unit_draws (snd (generate_vital_sign_value g vital_type
                                  NORMAL_HEALTHY_PATIENT r))) as Hstep.
  { intros vital_type r Hur.
    assert (get_vital_range_for_mode g vital_type NORMAL_HEALTHY_PATIENT
            = NORMAL_VITAL_RANGES vital_type) as Hactive.
    { unfold get_vital_range_for_mode. subst g. rewrite Hempty.
      by rewrite lookup_empty. }
    split.
    - rewrite <- Hactive. apply normal_value_within; [done | done |].
      rewrite Hactive.
      apply (predefined_ranges_one_decimal NORMAL_HEALTHY_PATIENT).
    - destruct (generate_vital_sign_value_draws g vital_type
                  NORMAL_HEALTHY_PATIENT r) as (k & _ & _ & ->).
      by apply unit_draws_advance. }
  subst reading.
  pose proof (generate_single_unfold self env) as H. cbv zeta in H.
  pose proof (sample_all_chain g NORMAL_HEALTHY_PATIENT (rng env)) as Hchain.
  cbv zeta in Hchain. fold g in H. rewrite Hmode in H. rewrite Hchain in H.
  cbn [fst snd] in H. rewrite H. cbn [fst].
  destruct (Hstep HEART_RATE _ Hr) as [[H1lo H1hi] Hr1].
  destruct (Hstep BLOOD_PRESSURE_SYSTOLIC _ Hr1) as [[H2lo H2hi] Hr2].
  destruct (Hstep BLOOD_PRESSURE_DIASTOLIC _ Hr2) as [[H3lo H3hi] Hr3].
  destruct (Hstep OXYGEN_SATURATION _ Hr3) as [[H4lo H4hi] Hr4].
  destruct (Hstep BODY_TEMPERATURE _ Hr4) as [[H5lo H5hi] Hr5].
  destruct (Hstep RESPIRATORY_RATE _ Hr5) as [[H6lo H6hi] Hr6].
  cbn [NORMAL_VITAL_RANGES fst snd] in *.
  pose proof (py_int_between 60 100 _ ltac:(lia) H1lo H1hi) as B1.
  pose proof (py_int_between 90 140 _ ltac:(lia) H2lo H2hi) as B2.
  pose proof (py_int_between 60 90 _ ltac:(lia) H3lo H3hi) as B3.
  pose proof (py_int_between 95 100 _ ltac:(lia) H4lo H4hi) as B4.
  pose proof (py_int_between 12 20 _ ltac:(lia) H6lo H6hi) as B6.
  cbn [heart_rate_bpm blood_pressure_systolic_mmhg
       blood_pressure_diastolic_mmhg oxygen_saturation_percentage
       respiratory_rate_per_minute body_temperature_celsius].
  repeat (split; [done |]).
  unfold _determine_urgency_level. cbv zeta.
  cbn [heart_rate_bpm blood_pressure_systolic_mmhg
       blood_pressure_diastolic_mmhg oxygen_saturation_percentage
       respiratory_rate_per_minute body_temperature_celsius
       simulation_mode_used mode_value].
  rewrite !if_true_else.
  repeat match goal with
         | |- context [(?a <? ?b)%Z] =>
             replace (a <? b)%Z with false by (symmetry; apply Z.ltb_ge; lia)
         end.
  replace (Qltb _ 35.0) with false by (symmetry; apply Qltb_ge; lra).
  replace (Qltb 40.0 _) with false by (symmetry; apply Qltb_ge; lra).
  reflexivity.
Qed.

Lemma normal_reading_in_normal_ranges_witness :
  let env := mkEnv even_draws sample_clock tt [] [] in
  let reading :=
    fst (fst (generate_single_vital_signs_reading (@new_engine unit) env)) in
  _current_simulation_mode (@new_engine unit) = NORMAL_HEALTHY_PATIENT
  /\ _custom_vital_ranges (_vital_signs_generator (@new_engine unit)) = ∅
  /\ unit_draws (rng env)
  /\ (60 <= heart_rate_bpm reading <= 100)%Z
  /\ _determine_urgency_level reading = false.
Proof.
  intros env reading.
  assert (_current_simulation_mode (@new_engine unit) = NORMAL_HEALTHY_PATIENT)
    as Hmode by reflexivity.
  assert (_custom_vital_ranges (_vital_signs_generator (@new_engine unit)) = ∅)
    as Hempty by reflexivity.
  assert (unit_draws (rng env)) as Hr by (intros n; simpl; lra).
  split; [exact Hmode |]. split; [exact Hempty |]. split; [exact Hr |].
  pose proof (normal_reading_in_normal_ranges new_engine env Hmode Hempty Hr)
    as (Hhr & _ & _ & _ & _ & _ & _ & Hcalm).
  split; [exact Hhr | exact Hcalm].
Defined.

(** X10: every reading generated in emergency mode requires immediate
    processing, whatever its values. *)
Theorem emergency_reading_is_urgent {SinkState : Type}
    (self : PatientVitalsSimulationEngine SinkState) (env : Env SinkState) :
  _current_simulation_mode self = EMERGENCY_CRITICAL_PATIENT ->
  _determine_urgency_level
    (fst (fst (generate_single_vital_signs_reading self env))) = true.
Proof.
  intros Hmode. apply emergency_mode_is_urgent.
  pose proof (generate_single_unfold self env) as H. cbv zeta in H.
  destruct (fst (sample_all _ _ _)) as [[[[[hr sys] dia] spo2] temp] rr].
  rewrite H, Hmode. reflexivity.
Qed.

Lemma emergency_reading_is_urgent_witness :
  let self := set_simulation_mode (@new_engine unit) EMERGENCY_CRITICAL_PATIENT in
  let env := mkEnv even_draws sample_clock tt [] [] in
  _current_simulation_mode self = EMERGENCY_CRITICAL_PATIENT
  /\ _determine_urgency_level
       (fst (fst (generate_single_vital_signs_reading self env))) = true.
Proof.
  intros self env.
  assert (_current_simulation_mode self = EMERGENCY_CRITICAL_PATIENT) as Hmode
    by reflexivity.
  split; [exact Hmode |].
  exact (emergency_reading_is_urgent self env Hmode).
Defined.

(** ** Callbacks *)

Lemma registrations_app {SinkState : Type} (id : nat)
    (l1 l2 : list (Callback SinkState)) :
  registrations id (l1 ++ l2)
  = (registrations id l1 + registrations id l2)%nat.
Proof. unfold registrations. by rewrite filter_app, length_app. Qed.

Lemma invocations_of_notification {SinkState : Type} (id : nat)
    (vital_signs : PatientVitalSigns) (callbacks : list (Callback SinkState)) :
  invocations id (map (fun cb => (callback_id cb, vital_signs)) callbacks)
  = registrations id callbacks.
Proof.
  unfold invocations, registrations.
  induction callbacks as [| cb rest IH]; [done |].
  cbn [map]. rewrite !filter_cons. cbn [fst].
  destruct (decide (callback_id cb = id)); cbn [length]; by rewrite IH.
Qed.

(** What [list.remove] does to the number of registrations. *)
Lemma list_remove_registrations {SinkState : Type} (x : Callback SinkState)
    (l : list (Callback SinkState)) :
  match list_remove x l with
  | Some l' =>
      (0 < registrations (callback_id x) l)%nat
      /\ forall id,
           registrations id l'
           = (registrations id l - (if decide (id = callback_id x) then 1 else 0))%nat
  | None => registrations (callback_id x) l = 0%nat
  end.
Proof.
  induction l as [| c rest IH]; [done |].
  cbn [list_remove]. unfold registrations in *. rewrite filter_cons.
  destruct (Nat.eqb_spec (callback_id c) (callback_id x)) as [Heq | Hne].
  - rewrite decide_True by done. cbn [length]. split; [lia |].
    intros id. rewrite filter_cons.
    destruct (decide (id = callback_id x)) as [-> | Hid].
    + rewrite decide_True by done. cbn [length]. lia.
    + rewrite decide_False by congruence. lia.
  - rewrite decide_False by done.
    destruct (list_remove x rest) as [rest' |].
    + destruct IH as [Hpos Hcount]. split; [done |].
      intros id. rewrite !filter_cons.
      destruct (decide (callback_id c = id)) as [Hc | Hc]; cbn [length].
      * rewrite Hcount. rewrite decide_False by congruence. lia.
      * apply Hcount.
    + exact IH.
Qed.

(** A cycle leaves the callbacks' state and the printed lines as the
    callbacks, applied in order to the reading, leave them. *)
Lemma generate_single_effect {SinkState : Type}
    (self : PatientVitalsSimulationEngine SinkState) (env : Env SinkState) :
  let out := generate_single_vital_signs_reading self env in
  sink_state (snd out)
  = fst (callbacks_effect (_data_broadcasting_callbacks self) (fst (fst out))
           (sink_state env))
  /\ stdout (snd out)
     = stdout env
       ++ snd (callbacks_effect (_data_broadcasting_callbacks self)
                 (fst (fst out)) (sink_state env)).
Proof.
  pose proof (generate_single_unfold self env) as H. cbv zeta in H.
  destruct (fst (sample_all _ _ _)) as [[[[[hr sys] dia] spo2] temp] rr].
  cbv zeta. rewrite H. cbn [fst snd].
  match goal with
  | |- context [_notify_data_broadcasting_callbacks ?cbs ?v ?e] =>
      destruct (notify_effect cbs v e) as (-> & ->)
  end.
  done.
Qed.

(** The reading of a cycle does not depend on the registered callbacks. *)
Lemma generate_single_reading_of_added {SinkState : Type}
    (self : PatientVitalsSimulationEngine SinkState) (env : Env SinkState)
    (callback_function : Callback SinkState) :
  fst (fst (generate_single_vital_signs_reading
              (add_data_broadcasting_callback self callback_function) env))
  = fst (fst (generate_single_vital_signs_reading self env)).
Proof.
  unfold generate_single_vital_signs_reading, add_data_broadcasting_callback.
  cbn [_vital_signs_generator _current_simulation_mode
       _monitoring_device_identifier _target_patient_identifier].
  destruct (sample_all _ _ _) as [[[[[[hr sys] dia] spo2] temp] rr] r].
  by destruct (create_current_timestamp_reading _ _ _ _ _ _ _ _ _ _).
Qed.


(** X12: registering a callback that is not yet registered and removing
    it again gives back the engine as it was; removing a callback that is
    not registered answers false and changes nothing. *)
Theorem add_then_remove_callback {SinkState : Type}
    (self : PatientVitalsSimulationEngine SinkState)
    (callback_function : Callback SinkState) :
  registrations (callback_id callback_function)
    (_data_broadcasting_callbacks self) = 0%nat ->
  remove_data_broadcasting_callback
    (add_data_broadcasting_callback self callback_function) callback_function
  = (true, self)
  /\ remove_data_broadcasting_callback self callback_function = (false, self).
Proof.
  intros Hnone.
  assert (forall l : list (Callback SinkState),
            registrations (callback_id callback_function) l = 0%nat ->
            list_remove callback_function l = None
            /\ list_remove callback_function (l ++ [callback_function])
               = Some l) as Hremove.
  { induction l as [| c rest IH]; intros Hl.
    - cbn. by rewrite Nat.eqb_refl.
    - unfold registrations in Hl. rewrite filter_cons in Hl.
      destruct (decide (callback_id c = callback_id callback_function))
        as [Heq | Hne]; [done |].
      destruct (IH Hl) as [IH1 IH2]. cbn [list_remove app].
      apply Nat.eqb_neq in Hne. by rewrite Hne, IH1, IH2. }
  destruct (Hremove _ Hnone) as [Habsent Hback].
  unfold remove_data_broadcasting_callback, add_data_broadcasting_callback.
  cbn [_data_broadcasting_callbacks]. rewrite Habsent, Hback.
  by destruct self.
Qed.

Lemma add_then_remove_callback_witness :
  let cb := mkCallback 7 (fun _ (n : nat) => (Completed, S n)) in
  let self :=
    fold_left add_data_broadcasting_callback counting_callbacks new_engine in
  registrations (callback_id cb) (_data_broadcasting_callbacks self) = 0%nat
  /\ remove_data_broadcasting_callback
       (add_data_broadcasting_callback self cb) cb = (true, self)
  /\ remove_data_broadcasting_callback self cb = (false, self).
Proof.
  intros cb self.
  assert (registrations (callback_id cb) (_data_broadcasting_callbacks self)
          = 0%nat) as Hnone by reflexivity.
  split; [exact Hnone |].
  exact (add_then_remove_callback self cb Hnone).
Defined.

(** ** Results and cost of a delivery *)

Section RetryLoopCost.

Variables (destination endpoint_url : string) (payload_data : Json).
Variables (timeout_seconds max_retry_attempts : Z).

(** The loop sleeps the fixed delay only, and only between two posts:
    fewer sleeps than posts.  Its result is consistent and stamped. *)
Lemma retry_loop_cost (remaining : nat) :
  forall (attempt_number : Z) (last_exception : option string) (w : World),
    (remaining <> 0%nat ->
     (attempt_number + Z.of_nat remaining = max_retry_attempts)%Z) ->
    let (result, w') :=
      retry_loop destination endpoint_url payload_data timeout_seconds
        max_retry_attempts remaining attempt_number last_exception w in
    exists (n m : nat) (new : list IOEvent),
      io_log w' = io_log w ++ new
      /\ length (posted_urls new) = n
      /\ slept_seconds new = replicate m BROADCASTING_RETRY_DELAY_SECONDS
      /\ (n <= remaining)%nat
      /\ (remaining <> 0%nat -> n <> 0%nat)
      /\ (m <= pred n)%nat
      /\ result_consistent result
      /\ is_Some (transmission_timestamp result).
Proof.
  induction remaining as [| remaining IH];
    intros attempt_number last_exception w Hinv.
  - cbn. exists 0%nat, 0%nat, []. rewrite app_nil_r.
    repeat split; try done; try lia.
    right. repeat split; [by eexists | done].
  - specialize (Hinv ltac:(lia)).
    cbn [retry_loop requests_post].
    destruct (outcomes w (posts w)) as [status_code text | | | |] eqn:Ho.
    1: { unfold is_success_code.
         case_bool_decide as Hcode; cbn;
           exists 1%nat, 0%nat,
             [Posted endpoint_url payload_data timeout_seconds post_headers];
           (repeat split; try done; try lia).
         - left. repeat split. by exists status_code.
         - right. repeat split; [by eexists |].
           intros c [= <-]. done. }
    all: destruct remaining as [| remaining].
    all: try (assert ((attempt_number <? max_retry_attempts - 1)%Z = false)
                as Hsleep by (apply Z.ltb_ge; lia);
              rewrite Hsleep; cbn;
              exists 1%nat, 0%nat,
                [Posted endpoint_url payload_data timeout_seconds post_headers];
              (repeat split; try done; try lia);
              right; repeat split; [by eexists | done]).
    all: assert ((attempt_number <? max_retry_attempts - 1)%Z = true)
           as Hsleep by (apply Z.ltb_lt; lia);
         rewrite Hsleep.
    all: match goal with
         | IH : forall a l w, _ |- context [retry_loop _ _ _ _ _ ?r ?a ?l ?w1] =>
             specialize (IH a l w1 ltac:(lia));
             destruct (retry_loop _ _ _ _ _ r a l w1) as [result w'];
             destruct IH as (n & m & new & Hlog & Hn & Hm & Hle & Hpos & Hmn
                             & Hres & Hts)
         end.
    all: exists (S n), (S m),
           (Posted endpoint_url payload_data timeout_seconds post_headers
              :: Slept BROADCASTING_RETRY_DELAY_SECONDS :: new).
    all: cbn in Hlog; rewrite <- !app_assoc in Hlog.
    all: specialize (Hpos ltac:(lia)).
    all: repeat split; try done; try lia.
    all: unfold posted_urls, slept_seconds in *; cbn; congruence.
Qed.

End RetryLoopCost.

Lemma send_cost (destination endpoint_url : string) (payload_data : Json)
    (timeout_seconds max_retry_attempts : Z) (w : World) :
  let sent := _send_http_post_request_with_retries destination endpoint_url
                payload_data timeout_seconds max_retry_attempts w in
  exists (n m : nat) (new : list IOEvent),
    io_log (snd sent) = io_log w ++ new
    /\ length (posted_urls new) = n
    /\ slept_seconds new = replicate m BROADCASTING_RETRY_DELAY_SECONDS
    /\ (n <= Z.to_nat max_retry_attempts)%nat
    /\ (m <= pred n)%nat
    /\ result_consistent (fst sent)
    /\ is_Some (transmission_timestamp (fst sent)).
Proof.
  cbv zeta. unfold _send_http_post_request_with_retries.
  pose proof (retry_loop_cost destination endpoint_url payload_data
                timeout_seconds max_retry_attempts
                (Z.to_nat max_retry_attempts) 0%Z None w ltac:(lia)) as H.
  destruct (retry_loop _ _ _ _ _ _ _ _ w) as [result w'].
  destruct H as (n & m & new & Hlog & Hn & Hm & Hle & _ & Hmn & Hres & Hts).
  exists n, m, new. by repeat split.
Qed.

Lemma total_slept_replicate (m : nat) (new : list IOEvent) :
  slept_seconds new = replicate m BROADCASTING_RETRY_DELAY_SECONDS ->
  total_slept new = (2 * Z.of_nat m)%Z.
Proof.
  unfold total_slept. intros ->.
  induction m as [| m IH]; [done |].
  cbn [replicate foldr]. rewrite IH.
  unfold BROADCASTING_RETRY_DELAY_SECONDS. lia.
Qed.

(** X13: whatever the destination does and whatever the budget, the result
    of a send is a success exactly when it carries one of the codes 200,
    201, 202, carries an error message exactly when it is a failure, and
    always carries the name of the destination and a time stamp. *)
Theorem send_result_consistent
    (destination endpoint_url : string) (payload_data : Json)
    (timeout_seconds max_retry_attempts : Z) (w : World) :
  let result :=
    fst (_send_http_post_request_with_retries destination endpoint_url
           payload_data timeout_seconds max_retry_attempts w) in
  (was_successful result = true
   <-> exists status_code,
         response_status_code result = Some status_code
         /\ status_code ∈ [200; 201; 202]%Z)
  /\ (was_successful result = false <-> is_Some (error_message result))
  /\ is_Some (transmission_timestamp result)
  /\ destination_name result = destination.
Proof.
  intros result. subst result.
  destruct (send_cost destination endpoint_url payload_data timeout_seconds
              max_retry_attempts w)
    as (n & m & new & _ & _ & _ & _ & _ & Hres & Hts).
  destruct (send_log destination endpoint_url payload_data timeout_seconds
              max_retry_attempts w) as (_ & _ & _ & _ & _ & _ & _ & Hdest).
  split; [| split; [| by split]].
  - destruct Hres as [(Hok & _ & Hcode) | (Hfail & _ & Hcode)].
    + by split.
    + split; [congruence |]. intros (c & Hc & Hin). by destruct (Hcode c Hc).
  - destruct Hres as [(Hok & Herr & _) | (Hfail & Herr & _)].
    + split; [congruence |]. rewrite Herr. by intros [? ?].
    + by split.
Qed.

(** X14: a send posts at most [max_retry_attempts] times, never when the
    budget is zero or negative; it sleeps only the retry delay of two
    seconds, fewer times than it posts, so that a send that posted [n]
    times has slept [2 * (n - 1)] seconds at most. *)
Theorem send_posts_and_sleeps_bounded
    (destination endpoint_url : string) (payload_data : Json)
    (timeout_seconds max_retry_attempts : Z) (w : World) :
  let w' :=
    snd (_send_http_post_request_with_retries destination endpoint_url
           payload_data timeout_seconds max_retry_attempts w) in
  exists new : list IOEvent,
    io_log w' = io_log w ++ new
    /\ (Z.of_nat (length (posted_urls new)) <= Z.max 0 max_retry_attempts)%Z
    /\ Forall (fun seconds => seconds = 2%Z) (slept_seconds new)
    /\ (length (slept_seconds new) <= pred (length (posted_urls new)))%nat
    /\ (total_slept new <= 2 * Z.max 0 (max_retry_attempts - 1))%Z.
Proof.
  intros w'. subst w'.
  destruct (send_cost destination endpoint_url payload_data timeout_seconds
              max_retry_attempts w)
    as (n & m & new & Hlog & Hn & Hm & Hle & Hmn & _ & _).
  exists new. split; [done |]. split; [lia |].
  rewrite (total_slept_replicate m new Hm), Hm, Hn, length_replicate.
  split; [| split; [done | lia]].
  apply Forall_forall. intros seconds Hin.
  apply elem_of_replicate in Hin. by destruct Hin.
Qed.

(** Everything a send leaves behind, in one place. *)
Lemma send_summary (destination endpoint_url : string) (payload_data : Json)
    (timeout_seconds max_retry_attempts : Z) (w : World) :
  let sent := _send_http_post_request_with_retries destination endpoint_url
                payload_data timeout_seconds max_retry_attempts w in
  exists (n m : nat) (new : list IOEvent),
    io_log (snd sent) = io_log w ++ new
    /\ posted_urls new = replicate n endpoint_url
    /\ posted_payloads new = replicate n payload_data
    /\ slept_seconds new = replicate m BROADCASTING_RETRY_DELAY_SECONDS
    /\ (n <= Z.to_nat max_retry_attempts)%nat
    /\ (Z.to_nat max_retry_attempts <> 0%nat -> n <> 0%nat)
    /\ (m <= pred n)%nat
    /\ result_consistent (fst sent)
    /\ destination_name (fst sent) = destination.
Proof.
  cbv zeta.
  destruct (send_cost destination endpoint_url payload_data timeout_seconds
              max_retry_attempts w)
    as (n & m & new & Hlog & Hn & Hm & Hle & Hmn & Hres & _).
  destruct (send_log destination endpoint_url payload_data timeout_seconds
              max_retry_attempts w)
    as (n' & new' & _ & Hpos & Hlog' & Hurls & Hpay & Hdest).
  rewrite Hlog in Hlog'. apply app_inv_head in Hlog'. subst new'.
  assert (n' = n) as ->.
  { rewrite Hurls, length_replicate in Hn. done. }
  exists n, m, new. by repeat split.
Qed.

Lemma total_slept_app (l1 l2 : list IOEvent) :
  total_slept (l1 ++ l2) = (total_slept l1 + total_slept l2)%Z.
Proof.
  unfold total_slept, slept_seconds. rewrite omap_app.
  induction (omap _ l1) as [| s rest IH]; cbn [app foldr]; lia.
Qed.

(** What a dispatch leaves behind: a log of posts of the generic payload
    to the enabled URLs, few enough posts and sleeps, and a consistent
    result per enabled destination. *)
Lemma broadcast_summary (self : VitalSignsDataBroadcaster)
    (vital_signs_data : PatientVitalSigns) (w : World) :
  let sent := broadcast_vital_signs_to_all_destinations self vital_signs_data w in
  let enabled := enabled_destinations self in
  exists new : list IOEvent,
    io_log (snd sent) = io_log w ++ new
    /\ (forall url, url ∈ posted_urls new <-> url ∈ map snd enabled)
    /\ Forall (fun payload => payload = to_json_serializable_dict vital_signs_data)
         (posted_payloads new)
    /\ (length (posted_urls new) <= 3 * length enabled)%nat
    /\ (total_slept new <= 4 * Z.of_nat (length enabled))%Z
    /\ map destination_name (fst sent) = map fst enabled
    /\ Forall result_consistent (fst sent).
Proof.
  cbv zeta.
  unfold broadcast_vital_signs_to_all_destinations, enabled_destinations,
    broadcast_to_rule_engine, broadcast_to_user_interface.
  pose proof (send_summary "Rule Engine" (_rule_engine_endpoint_url self)
                (to_json_serializable_dict vital_signs_data)
                RULE_ENGINE_CONNECTION_TIMEOUT_SECONDS
                RULE_ENGINE_REQUEST_RETRY_COUNT w) as H1.
  cbv zeta in H1.
  destruct (_is_rule_engine_broadcasting_enabled self);
    destruct (_is_ui_broadcasting_enabled self).
  - destruct (_send_http_post_request_with_retries "Rule Engine" _ _ _ _ w)
      as [r1 w1].
    pose proof (send_summary "User Interface" (_ui_endpoint_url self)
                  (to_json_serializable_dict vital_signs_data)
                  UI_CONNECTION_TIMEOUT_SECONDS MAX_BROADCASTING_RETRIES w1)
      as H2. cbv zeta in H2.
    destruct (_send_http_post_request_with_retries "User Interface" _ _ _ _ w1)
      as [r2 w2].
    cbn [fst snd] in *.
    destruct H1 as (n1 & m1 & new1 & Hlog1 & Hu1 & Hp1 & Hs1 & Hle1 & Hpos1
                    & Hmn1 & Hres1 & Hd1).
    destruct H2 as (n2 & m2 & new2 & Hlog2 & Hu2 & Hp2 & Hs2 & Hle2 & Hpos2
                    & Hmn2 & Hres2 & Hd2).
    specialize (Hpos1 ltac:(done)). specialize (Hpos2 ltac:(done)).
    change (Z.to_nat RULE_ENGINE_REQUEST_RETRY_COUNT) with 3%nat in Hle1.
    change (Z.to_nat MAX_BROADCASTING_RETRIES) with 3%nat in Hle2.
    exists (new1 ++ new2).
    split; [by rewrite Hlog2, Hlog1, app_assoc |].
    split.
    { intros url. unfold posted_urls in *. rewrite omap_app, Hu1, Hu2.
      rewrite elem_of_app, !elem_of_replicate. cbn.
      rewrite elem_of_cons, list_elem_of_singleton. tauto. }
    split.
    { unfold posted_payloads in *. rewrite omap_app, Hp1, Hp2.
      apply Forall_app. split; apply Forall_forall; intros p Hp;
        apply elem_of_replicate in Hp; by destruct Hp. }
    split.
    { unfold posted_urls in *. rewrite omap_app, length_app, Hu1, Hu2,
        !length_replicate. cbn. lia. }
    split.
    { rewrite total_slept_app, (total_slept_replicate m1 new1 Hs1),
        (total_slept_replicate m2 new2 Hs2). cbn. lia. }
    split; [cbn; by rewrite Hd1, Hd2 |].
    cbn. repeat (constructor; [done |]). constructor.
  - destruct (_send_http_post_request_with_retries "Rule Engine" _ _ _ _ w)
      as [r1 w1].
    cbn [fst snd] in *.
    destruct H1 as (n1 & m1 & new1 & Hlog1 & Hu1 & Hp1 & Hs1 & Hle1 & Hpos1
                    & Hmn1 & Hres1 & Hd1).
    specialize (Hpos1 ltac:(done)).
    change (Z.to_nat RULE_ENGINE_REQUEST_RETRY_COUNT) with 3%nat in Hle1.
    exists new1. split; [done |].
    split.
    { intros url. rewrite Hu1, elem_of_replicate. cbn.
      rewrite list_elem_of_singleton. tauto. }
    split.
    { rewrite Hp1. apply Forall_forall; intros p Hp;
        apply elem_of_replicate in Hp; by destruct Hp. }
    split; [rewrite Hu1, length_replicate; cbn; lia |].
    split; [rewrite (total_slept_replicate m1 new1 Hs1); cbn; lia |].
    split; [cbn; by rewrite Hd1 |].
    cbn. repeat (constructor; [done |]). constructor.
  - clear H1.
    pose proof (send_summary "User Interface" (_ui_endpoint_url self)
                  (to_json_serializable_dict vital_signs_data)
                  UI_CONNECTION_TIMEOUT_SECONDS MAX_BROADCASTING_RETRIES w)
      as H2. cbv zeta in H2.
    destruct (_send_http_post_request_with_retries "User Interface" _ _ _ _ w)
      as [r2 w2].
    cbn [fst snd] in *.
    destruct H2 as (n2 & m2 & new2 & Hlog2 & Hu2 & Hp2 & Hs2 & Hle2 & Hpos2
                    & Hmn2 & Hres2 & Hd2).
    specialize (Hpos2 ltac:(done)).
    change (Z.to_nat MAX_BROADCASTING_RETRIES) with 3%nat in Hle2.
    exists new2. split; [done |].
    split.
    { intros url. rewrite Hu2, elem_of_replicate. cbn.
      rewrite list_elem_of_singleton. tauto. }
    split.
    { rewrite Hp2. apply Forall_forall; intros p Hp;
        apply elem_of_replicate in Hp; by destruct Hp. }
    split; [rewrite Hu2, length_replicate; cbn; lia |].
    split; [rewrite (total_slept_replicate m2 new2 Hs2); cbn; lia |].
    split; [cbn; by rewrite Hd2 |].
    cbn. repeat (constructor; [done |]). constructor.
  - exists []. cbn. rewrite app_nil_r.
    split; [done |]. split; [done |]. split; [constructor |].
    split; [lia |]. split; [done |]. split; [done | constructor].
Qed.

(** X15: one dispatch posts at most three times per enabled destination,
    six times in all, sleeps at most four seconds per enabled destination,
    eight in all, posts nothing but the generic payload of the reading,
    and every result it returns is consistent. *)
Theorem broadcast_cost_bounded (self : VitalSignsDataBroadcaster)
    (vital_signs_data : PatientVitalSigns) (w : World) :
  let sent := broadcast_vital_signs_to_all_destinations self vital_signs_data w in
  exists new : list IOEvent,
    io_log (snd sent) = io_log w ++ new
    /\ (length (posted_urls new) <= 3 * length (enabled_destinations self))%nat
    /\ (length (posted_urls new) <= 6)%nat
    /\ (total_slept new <= 4 * Z.of_nat (length (enabled_destinations self)))%Z
    /\ (total_slept new <= 8)%Z
    /\ Forall (fun payload => payload = to_json_serializable_dict vital_signs_data)
         (posted_payloads new)
    /\ Forall result_consistent (fst sent).
Proof.
  cbv zeta.
  destruct (broadcast_summary self vital_signs_data w)
    as (new & Hlog & _ & Hpay & Hposts & Hslept & _ & Hres).
  assert (length (enabled_destinations self) <= 2)%nat as Hen.
  { unfold enabled_destinations.
    destruct (_is_rule_engine_broadcasting_enabled self);
      destruct (_is_ui_broadcasting_enabled self); cbn; lia. }
  exists new. repeat split; try done; lia.
Qed.

(** ** Connectivity tests and the rule-engine client *)

(** A send with a budget of one: one post, no sleep, and a success exactly
    when that post is answered with a success code. *)
Lemma send_once (destination endpoint_url : string) (payload_data : Json)
    (timeout_seconds : Z) (w : World) :
  let sent := _send_http_post_request_with_retries destination endpoint_url
                payload_data timeout_seconds 1 w in
  io_log (snd sent)
  = io_log w ++ [Posted endpoint_url payload_data timeout_seconds post_headers]
  /\ posts (snd sent) = S (posts w)
  /\ destination_name (fst sent) = destination
  /\ (was_successful (fst sent) = true
      <-> exists status_code text,
            outcomes w (posts w) = Response status_code text
            /\ status_code ∈ [200; 201; 202]%Z).
Proof.
  cbv zeta. unfold _send_http_post_request_with_retries.
  change (Z.to_nat 1) with 1%nat. cbn [retry_loop requests_post].
  destruct (outcomes w (posts w)) as [status_code text | | | |] eqn:Ho.
  1: { unfold is_success_code. case_bool_decide as Hcode; cbn.
       - repeat split; try done. intros _. by exists status_code, text.
       - repeat split; try done. intros (c & t & [= <- <-] & Hin). done. }
  all: cbn; repeat split; try done; intros (c & t & [=] & _).
Qed.

(** The rule-engine test, on its own. *)
Lemma rule_engine_test_log (self : VitalSignsDataBroadcaster)
    (w : World) :
  io_log (snd (test_rule_engine_connectivity self w))
  = io_log w ++ [Posted (_rule_engine_endpoint_url self)
                   (connectivity_test_payload
                      (readings (wall w) (reads (wall w))))
                   RULE_ENGINE_CONNECTION_TIMEOUT_SECONDS post_headers]
  /\ destination_name (fst (test_rule_engine_connectivity self w))
     = "Rule Engine (Test)".
Proof.
  unfold test_rule_engine_connectivity, world_now, now_isoformat.
  set (w1 := mkWorld _ _ _ _).
  destruct (send_once "Rule Engine (Test)" (_rule_engine_endpoint_url self)
              (connectivity_test_payload (readings (wall w) (reads (wall w))))
              RULE_ENGINE_CONNECTION_TIMEOUT_SECONDS w1)
    as (Hlog & _ & Hdest & _).
  by split.
Qed.

(** X16: each connectivity test reads the clock for its payload and then
    posts that payload exactly once to its endpoint, without a sleep,
    whatever the answer; it succeeds exactly when that one post is
    answered with 200, 201 or 202. *)
Theorem connectivity_tests_post_once (self : VitalSignsDataBroadcaster)
    (w : World) :
  let now := readings (wall w) (reads (wall w)) in
  let rule_engine_test := test_rule_engine_connectivity self w in
  let ui_test := test_ui_connectivity self w in
  (io_log (snd rule_engine_test)
   = io_log w ++ [Posted (_rule_engine_endpoint_url self)
                    (connectivity_test_payload now)
                    RULE_ENGINE_CONNECTION_TIMEOUT_SECONDS post_headers]
   /\ destination_name (fst rule_engine_test) = "Rule Engine (Test)"
   /\ (was_successful (fst rule_engine_test) = true
       <-> exists status_code text,
             outcomes w (posts w) = Response status_code text
             /\ status_code ∈ [200; 201; 202]%Z))
  /\
  (io_log (snd ui_test)
   = io_log w ++ [Posted (_ui_endpoint_url self)
                    (connectivity_test_payload now)
                    UI_CONNECTION_TIMEOUT_SECONDS post_headers]
   /\ destination_name (fst ui_test) = "User Interface (Test)"
   /\ (was_successful (fst ui_test) = true
       <-> exists status_code text,
             outcomes w (posts w) = Response status_code text
             /\ status_code ∈ [200; 201; 202]%Z)).
Proof.
  cbv zeta. unfold test_rule_engine_connectivity, test_ui_connectivity,
    world_now, now_isoformat.
  set (w1 := mkWorld _ _ _ _).
  split.
  - destruct (send_once "Rule Engine (Test)" (_rule_engine_endpoint_url self)
                (connectivity_test_payload (readings (wall w) (reads (wall w))))
                RULE_ENGINE_CONNECTION_TIMEOUT_SECONDS w1)
      as (Hlog & _ & Hdest & Hok).
    split; [exact Hlog | split; [exact Hdest | exact Hok]].
  - destruct (send_once "User Interface (Test)" (_ui_endpoint_url self)
                (connectivity_test_payload (readings (wall w) (reads (wall w))))
                UI_CONNECTION_TIMEOUT_SECONDS w1)
      as (Hlog & _ & Hdest & Hok).
    split; [exact Hlog | split; [exact Hdest | exact Hok]].
Qed.

(** X17: once the client is given a base URL and an endpoint path, a
    submission posts at least once and only to their concatenation, and so
    does the client's connection test.  Whether rule-engine integration is
    enabled or disabled makes no difference to either. *)
Theorem client_posts_to_configured_endpoint
    (self : RuleEngineIntegrationClient) (base_url endpoint_path : string)
    (is_enabled : bool) (patient_vital_signs : PatientVitalSigns) (w : World) :
  let client :=
    enable_rule_engine_integration
      (configure_rule_engine_endpoints self base_url endpoint_path)
      is_enabled in
  (exists (n : nat) (new : list IOEvent),
     n <> 0%nat
     /\ io_log (snd (submit_vital_signs_for_rule_evaluation client
                       patient_vital_signs w))
        = io_log w ++ new
     /\ posted_urls new = replicate n (base_url +:+ endpoint_path))
  /\ posted_urls
       (io_log (snd (test_rule_engine_connection_and_authentication client w)))
     = posted_urls (io_log w) ++ [base_url +:+ endpoint_path].
Proof.
  cbv zeta. split.
  - unfold submit_vital_signs_for_rule_evaluation.
    destruct (rule_engine_payload_of patient_vital_signs w)
      as [payload w1] eqn:Hp.
    assert (io_log w1 = io_log w) as Hlog1.
    { unfold rule_engine_payload_of, _format_vital_signs_for_rule_engine,
        world_now in Hp. cbn in Hp. by inversion Hp. }
    match goal with
    | |- context [broadcast_to_rule_engine ?b ?v ?w0] =>
        destruct (broadcast_to_rule_engine_log b v w0)
          as (n & new & Hn & Hlog & Hurls & _ & _)
    end.
    exists n, new. rewrite Hlog, Hlog1. by repeat split.
  - unfold test_rule_engine_connection_and_authentication.
    match goal with
    | |- context [test_rule_engine_connectivity ?b ?w0] =>
        destruct (rule_engine_test_log b w0) as [Hlog _]
    end.
    rewrite Hlog. unfold posted_urls. by rewrite omap_app.
Qed.

(** ** From the engine to the destinations *)

(** X18: with the HTTP server's broadcasting callback as the only
    registered one, a generation cycle posts the generic payload of the
    reading it returns, and nothing else, to exactly the URLs of the
    enabled destinations; the callback prints one line per enabled
    destination and never raises, so the engine prints no error. *)
Theorem broadcasting_callback_delivers_reading
    (data_broadcaster : VitalSignsDataBroadcaster) (id : nat)
    (self : PatientVitalsSimulationEngine (World * list string))
    (env : Env (World * list string)) :
  _data_broadcasting_callbacks self
  = [mkCallback id (_broadcast_vital_signs_data data_broadcaster)] ->
  let out := generate_single_vital_signs_reading self env in
  let reading := fst (fst out) in
  stdout (snd out) = stdout env
  /\ (exists new : list IOEvent,
        io_log (fst (sink_state (snd out)))
        = io_log (fst (sink_state env)) ++ new
        /\ Forall (fun payload => payload = to_json_serializable_dict reading)
             (posted_payloads new)
        /\ forall url,
             url ∈ posted_urls new
             <-> url ∈ map snd (enabled_destinations data_broadcaster))
  /\ (exists lines : list string,
        snd (sink_state (snd out)) = snd (sink_state env) ++ lines
        /\ length lines = length (enabled_destinations data_broadcaster)).
Proof.
  intros Hcallbacks out reading. subst reading out.
  pose proof (generate_single_unfold self env) as H. cbv zeta in H.
  destruct (fst (sample_all _ _ _)) as [[[[[hr sys] dia] spo2] temp] rr].
  rewrite H, Hcallbacks. cbn [fst snd].
  set (reading := mkPatientVitalSigns _ _ _ _ _ _ _ _ _ _ _ _).
  cbn [_notify_data_broadcasting_callbacks callback_call callback_id sink_state].
  unfold _broadcast_vital_signs_data.
  destruct (broadcast_summary data_broadcaster reading (fst (sink_state env)))
    as (new & Hlog & Hurls & Hpay & _ & _ & Hnames & _).
  destruct (broadcast_vital_signs_to_all_destinations data_broadcaster reading
              (fst (sink_state env))) as [results w'].
  cbn [fst snd stdout sink_state] in *.
  split; [done |]. split.
  - by exists new.
  - exists (map broadcast_report_line results). split; [done |].
    rewrite length_map.
    rewrite <- (length_map destination_name results), Hnames.
    by rewrite length_map.
Qed.

(** Both destinations enabled and nobody listening: six posts in all,
    two lines printed. *)
Lemma broadcasting_callback_delivers_reading_witness :
  let self :=
    add_data_broadcasting_callback new_engine
      (mkCallback 1 (_broadcast_vital_signs_data new_broadcaster)) in
  let env := mkEnv even_draws sample_clock (dead_world, []) [] [] in
  let out := generate_single_vital_signs_reading self env in
  _data_broadcasting_callbacks self
  = [mkCallback 1 (_broadcast_vital_signs_data new_broadcaster)]
  /\ stdout (snd out) = stdout env
  /\ exists lines : list string,
       snd (sink_state (snd out)) = snd (sink_state env) ++ lines
       /\ length lines = length (enabled_destinations new_broadcaster).
Proof.
  intros self env out.
  assert (_data_broadcasting_callbacks self
          = [mkCallback 1 (_broadcast_vital_signs_data new_broadcaster)])
    as Hcallbacks by reflexivity.
  split; [exact Hcallbacks |].
  pose proof (broadcasting_callback_delivers_reading new_broadcaster 1 self
                env Hcallbacks) as (Hstdout & _ & Hlines).
  split; [exact Hstdout | exact Hlines].
Defined.

(** ** Enumerations *)

(** X19: looking a vital type or a mode up by its value gives back the
    member the value came from, and a string that is looked up
    successfully is the value of the member found; so no two members share
    a value, and every other string is refused. *)
Theorem enumeration_values_round_trip :
  (forall v, VitalSignType_of_value (vital_value v) = Some v)
  /\ (forall value v,
        VitalSignType_of_value value = Some v -> vital_value v = value)
  /\ (forall m, PatientSimulationMode_of_value (mode_value m) = Some m)
  /\ (forall value m,
        PatientSimulationMode_of_value value = Some m -> mode_value m = value).
Proof.
  split; [by intros [] |]. split; [| split; [by intros [] |]].
  - intros value v Hfind. unfold VitalSignType_of_value in Hfind.
    apply find_some in Hfind as [_ Heq]. by apply String.eqb_eq in Heq.
  - intros value m Hfind. unfold PatientSimulationMode_of_value in Hfind.
    apply find_some in Hfind as [_ Heq]. by apply String.eqb_eq in Heq.
Qed.

Lemma enumeration_values_round_trip_witness :
  VitalSignType_of_value "spo2" = Some OXYGEN_SATURATION
  /\ vital_value OXYGEN_SATURATION = "spo2"
  /\ VitalSignType_of_value "SpO2" = None.
Proof.
  assert (VitalSignType_of_value "spo2" = Some OXYGEN_SATURATION) as Hfound
    by reflexivity.
  split; [exact Hfound |].
  split; [| reflexivity].
  exact (proj1 (proj2 enumeration_values_round_trip) "spo2"
           OXYGEN_SATURATION Hfound).
Defined.

(** ** Request handlers *)

Lemma valid_vital_types_found (vital_type_name : string) :
  vital_type_name ∈ valid_vital_types
  <-> is_Some (VitalSignType_of_value vital_type_name).
Proof.
  split.
  - unfold valid_vital_types. rewrite list_elem_of_fmap.
    intros (v & -> & _). exists v. by destruct v.
  - intros [v Hv]. unfold VitalSignType_of_value in Hv.
    apply find_some in Hv as [_ Heq]. apply String.eqb_eq in Heq. subst.
    unfold valid_vital_types. apply list_elem_of_fmap.
    exists v. split; [done |]. destruct v; cbn; set_solver.
Qed.

(** X20: the handler that removes a custom range always answers.  A name
    that is not the value of a vital type gets a 400 with status "failed"
    and the engine stays as it was.  A valid name gets a 200: with status
    "success" when an override was set for that vital type, with status
    "not_found" when none was, and from then on the vital type resolves to
    the static table of the mode. *)
Theorem remove_custom_range_handler_answers {SinkState : Type}
    (simulation_engine : PatientVitalsSimulationEngine SinkState)
    (vital_type_name : string) (env : Env SinkState) :
  exists response simulation_engine' env',
    _handle_remove_custom_vital_range_request simulation_engine
      vital_type_name env
    = Some (response, simulation_engine', env')
    /\ (VitalSignType_of_value vital_type_name = None ->
        sent_status response = 400%Z
        /\ dict_get "status" (sent_data response) = Some (JStr "failed")
        /\ simulation_engine' = simulation_engine)
    /\ (forall vital_type,
          VitalSignType_of_value vital_type_name = Some vital_type ->
          sent_status response = 200%Z
          /\ dict_get "status" (sent_data response)
             = Some (JStr (if bool_decide
                                (is_Some (_custom_vital_ranges
                                            (_vital_signs_generator
                                               simulation_engine)
                                          !! vital_type))
                           then "success" else "not_found"))
          /\ forall mode,
               get_vital_range_for_mode
                 (_vital_signs_generator simulation_engine') vital_type mode
               = _predefined_vital_ranges mode vital_type).
Proof.
  unfold _handle_remove_custom_vital_range_request.
  destruct (VitalSignType_of_value vital_type_name) as [vital_type |] eqn:Hv.
  - assert (vital_type_name ∈ valid_vital_types) as Hin.
    { apply valid_vital_types_found. rewrite Hv. by eexists. }
    rewrite (bool_decide_eq_true_2 _ Hin). cbn [negb].
    unfold remove_custom_vital_sign_range, remove_custom_vital_range.
    destruct (bool_decide (is_Some _)) eqn:Hset;
      unfold _get_current_iso_timestamp, now_isoformat;
      do 3 eexists; (split; [reflexivity |]); (split; [done |]);
      intros vt [= <-]; cbn [sent_status sent_data _send_json_response_with_status];
      rewrite Hset;
      (split; [reflexivity |]); (split; [reflexivity |]);
      intros mode; unfold get_vital_range_for_mode;
      cbn [_vital_signs_generator _custom_vital_ranges];
      by rewrite lookup_delete_eq.
  - assert (vital_type_name ∉ valid_vital_types) as Hout.
    { rewrite valid_vital_types_found, Hv. by intros [? ?]. }
    rewrite (bool_decide_eq_false_2 _ Hout). cbn [negb].
    unfold _send_error_response_with_message, _get_current_iso_timestamp,
      now_isoformat.
    do 3 eexists. split; [reflexivity |]. split; [| done].
    intros _. by repeat split.
Qed.

(** An override of the heart rate is removed through the handler; an
    unknown name is refused. *)
Lemma remove_custom_range_handler_answers_witness :
  let engine :=
    snd (set_custom_vital_sign_range (@new_engine unit) HEART_RATE 50 90) in
  let env := mkEnv even_draws sample_clock tt [] [] in
  VitalSignType_of_value "heart_rate" = Some HEART_RATE
  /\ VitalSignType_of_value "pulse" = None
  /\ (exists response engine' env',
        _handle_remove_custom_vital_range_request engine "heart_rate" env
        = Some (response, engine', env')
        /\ sent_status response = 200%Z
        /\ dict_get "status" (sent_data response) = Some (JStr "success"))
  /\ (exists response engine' env',
        _handle_remove_custom_vital_range_request engine "pulse" env
        = Some (response, engine', env')
        /\ sent_status response = 400%Z
        /\ engine' = engine).
Proof.
  intros engine env.
  assert (VitalSignType_of_value "heart_rate" = Some HEART_RATE) as Hfound
    by reflexivity.
  assert (VitalSignType_of_value "pulse" = None) as Hmissing by reflexivity.
  split; [exact Hfound |]. split; [exact Hmissing |]. split.
  - destruct (remove_custom_range_handler_answers engine "heart_rate" env)
      as (response & engine' & env' & Hrun & _ & Hvalid).
    destruct (Hvalid HEART_RATE Hfound) as (Hstatus & Hbody & _).
    exists response, engine', env'.
    split; [exact Hrun |]. split; [exact Hstatus | exact Hbody].
  - destruct (remove_custom_range_handler_answers engine "pulse" env)
      as (response & engine' & env' & Hrun & Hinvalid & _).
    destruct (Hinvalid Hmissing) as (Hstatus & _ & Hsame).
    exists response, engine', env'.
    split; [exact Hrun |]. split; [exact Hstatus | exact Hsame].
Defined.

(** X21: the start and stop handlers always answer 200, and the
    [is_running] they report is the state of the engine after the call.
    The status is "success" exactly when the call changed that state;
    otherwise it is "already_running", respectively "not_running", and the
    engine stays as it was. *)
Theorem start_stop_handlers_report_state {SinkState : Type}
    (simulation_engine : PatientVitalsSimulationEngine SinkState)
    (env : Env SinkState) :
  let started :=
    _handle_start_continuous_simulation_request simulation_engine env in
  let stopped :=
    _handle_stop_continuous_simulation_request simulation_engine env in
  let was_running := is_simulation_currently_running simulation_engine in
  (sent_status (fst (fst started)) = 200%Z
   /\ dict_get "is_running" (sent_data (fst (fst started)))
      = Some (JBool (is_simulation_currently_running (snd (fst started))))
   /\ is_simulation_currently_running (snd (fst started)) = true
   /\ dict_get "status" (sent_data (fst (fst started)))
      = Some (JStr (if was_running then "already_running" else "success"))
   /\ (was_running = true -> snd (fst started) = simulation_engine))
  /\
  (sent_status (fst (fst stopped)) = 200%Z
   /\ dict_get "is_running" (sent_data (fst (fst stopped)))
      = Some (JBool (is_simulation_currently_running (snd (fst stopped))))
   /\ is_simulation_currently_running (snd (fst stopped)) = false
   /\ dict_get "status" (sent_data (fst (fst stopped)))
      = Some (JStr (if was_running then "success" else "not_running"))
   /\ (was_running = false -> snd (fst stopped) = simulation_engine)).
Proof.
  cbv zeta.
  unfold _handle_start_continuous_simulation_request,
    _handle_stop_continuous_simulation_request,
    start_continuous_vital_signs_simulation,
    stop_continuous_vital_signs_simulation, is_simulation_currently_running.
  destruct (_is_continuous_simulation_running simulation_engine) eqn:Hrun;
    cbn; rewrite ?Hrun; repeat split; done.
Qed.

Lemma start_stop_handlers_report_state_witness :
  let env := mkEnv even_draws sample_clock tt [] [] in
  let stopped := _handle_stop_continuous_simulation_request (@new_engine unit) env in
  is_simulation_currently_running (@new_engine unit) = false
  /\ snd (fst stopped) = new_engine
  /\ dict_get "status" (sent_data (fst (fst stopped)))
     = Some (JStr "not_running").
Proof.
  intros env stopped.
  assert (is_simulation_currently_running (@new_engine unit) = false) as Hidle
    by reflexivity.
  split; [exact Hidle |].
  pose proof (proj2 (start_stop_handlers_report_state new_engine env))
    as (_ & _ & _ & Hstatus & Hsame).
  split; [exact (Hsame Hidle) | exact Hstatus].
Defined.

(** X22: asking for a single reading runs a generation cycle and answers
    with the reading of that cycle; asking for the current vitals
    afterwards answers with the same reading.  Before any cycle the
    current vitals are answered with "no_data". *)
Theorem single_then_current_vitals {SinkState : Type}
    (simulation_engine : PatientVitalsSimulationEngine SinkState)
    (env : Env SinkState) :
  let reading :=
    fst (fst (generate_single_vital_signs_reading simulation_engine env)) in
  let single :=
    _handle_generate_single_vitals_request simulation_engine env in
  let current :=
    _handle_get_current_vitals_request (snd (fst single)) (snd single) in
  dict_get "vital_signs" (sent_data (fst (fst single)))
  = Some (to_dictionary reading)
  /\ dict_get "status" (sent_data (fst (fst single))) = Some (JStr "success")
  /\ dict_get "vital_signs" (sent_data (fst current))
     = Some (to_dictionary reading)
  /\ dict_get "status" (sent_data (fst current)) = Some (JStr "success")
  /\ (forall env0 : Env SinkState,
        dict_get "status"
          (sent_data (fst (_handle_get_current_vitals_request
                             (@new_engine SinkState) env0)))
        = Some (JStr "no_data")).
Proof.
  cbv zeta. unfold _handle_generate_single_vitals_request.
  pose proof (generate_single_unfold simulation_engine env) as H.
  cbv zeta in H.
  destruct (fst (sample_all _ _ _)) as [[[[[hr sys] dia] spo2] temp] rr].
  rewrite H. by repeat split.
Qed.
